(** * hyperopt_optimize.py: the hyper-parameter search driver

    A shallow embedding of [src/hyper_param/hyperopt_optimize.py] and the
    properties its specification states about it.

    The script is orchestration code: it declares a hyperopt search space,
    hands an objective to [hyper_tune], plots models and logs.  The embedding
    keeps that shape:
    - Python values are a small inductive type ([PyVal]); dictionaries are
      association lists in insertion order;
    - the script's effects (logging, the file system, the Keras backend
      session, the results store) are threaded through a state-and-exception
      monad [M] over a [World]; every call to a collaborator is also written
      to a trace, oldest first;
    - the collaborators that are imported and not defined in the file
      ([model_dir], [build_model], [plot_model], [hyper_tune], ...) are the
      fields of a record [Collaborators]; a collaborator that can raise
      returns an outcome that says so.

    Exceptions are instances of [Exception], the class the script's handler
    names; [KeyboardInterrupt] and [SystemExit], which end the process, are
    outside this model.  A string is the bytes of its text; what the
    built-in [int] does with ASCII text is written out, what it does with
    other text is a parameter of the interpreter ([Runtime]). *)

From Stdlib Require Import List String Ascii Bool Arith ZArith QArith Lia.
From Stdlib Require Import Reals Qreals Lra.
From Stdlib Require Import DecimalString DecimalZ.
Import ListNotations.

Open Scope string_scope.

#[local] Set Warnings "-register-all".

(* ================================================================= *)
(** ** Python values *)

Inductive PyVal : Type :=
| PNone
| PBool (b : bool)
| PInt (z : Z)
| PFloat (q : Q)
| PStr (s : string)
| PDict (items : list (string * PyVal)).

(** A hyperspace (one concrete configuration) is a [dict] with string keys. *)
Definition Config : Type := list (string * PyVal).

(** [d.get(key)] on an insertion-ordered dict with unique keys. *)
Fixpoint dict_get {A : Type} (d : list (string * A)) (key : string) : option A :=
  match d with
  | [] => None
  | (k, v) :: rest => if String.eqb k key then Some v else dict_get rest key
  end.

(** The dict without [key]. *)
Definition dict_remove {A : Type} (key : string) (d : list (string * A))
  : list (string * A) :=
  filter (fun kv => negb (String.eqb (fst kv) key)) d.

(** [os.environ]: variable names and their values, both strings. *)
Definition Env : Type := list (string * string).

(** [os.environ.get(name, default)] *)
Definition environ_get (environ : Env) (name : string) (default : PyVal) : PyVal :=
  match dict_get environ name with
  | Some v => PStr v
  | None => default
  end.

(* ================================================================= *)
(** ** Exceptions and outcomes *)

Record exn : Type := mk_exn {
  exn_class : string;   (* the name of the exception's class *)
  exn_str : string      (* what [str(err)] gives *)
}.

Inductive result (A : Type) : Type :=
| Ok (a : A)
| Raise (e : exn).

Arguments Ok {A} a.
Arguments Raise {A} e.

Definition is_ok {A : Type} (r : result A) : bool :=
  match r with Ok _ => true | Raise _ => false end.

(* ================================================================= *)
(** ** [int(...)] *)

(** The conversion is that of CPython 3.6 and later.  What it does on ASCII
    text is written out below.  What it does on text with a character
    outside ASCII depends on the interpreter's Unicode tables and on how
    [os.environ] decodes the bytes of a variable: the bytes of two
    Arabic-Indic digits are an integer when the encoding is UTF-8 and no
    integer when it is ASCII.  That part, and the limit on the number of
    digits that later versions have, are the interpreter's. *)
Record Runtime : Type := mk_runtime {
  (* int(s) for a text with a character outside ASCII; None: ValueError *)
  int_of_text : string -> option Z;
  (* the message of that ValueError *)
  int_error_of_text : string -> string;
  (* sys.get_int_max_str_digits(); 0 when there is no limit *)
  int_max_str_digits : nat
}.

Definition nl : string := String "010"%char EmptyString.
Definition dquote : ascii := "034"%char.
Definition backslash : ascii := "092"%char.

(** White space for the conversion of ASCII text: tab, line feed, vertical
    tab, form feed, carriage return and space. *)
Definition is_space (c : ascii) : bool :=
  let n := nat_of_ascii c in
  ((9 <=? n) && (n <=? 13) || (n =? 32))%nat.

Definition digit_of (c : ascii) : option Z :=
  let n := Z.of_nat (nat_of_ascii c) in
  if ((48 <=? n) && (n <=? 57))%Z then Some (n - 48)%Z else None.

Definition is_ascii (c : ascii) : bool := (nat_of_ascii c <? 128)%nat.

Fixpoint all_ascii (s : string) : bool :=
  match s with
  | String c rest => is_ascii c && all_ascii rest
  | EmptyString => true
  end.

Fixpoint lstrip (s : string) : string :=
  match s with
  | String c rest => if is_space c then lstrip rest else s
  | EmptyString => EmptyString
  end.

Fixpoint only_spaces (s : string) : bool :=
  match s with
  | String c rest => is_space c && only_spaces rest
  | EmptyString => true
  end.

(** The scan of the digits after the first one: a digit, or one underscore
    and then a digit, as long as there are some.  It gives the value, the
    number of digits and the text left; [None] when an underscore is not
    followed by a digit. *)
Fixpoint scan_digits (acc : Z) (count : nat) (s : string)
  : option (Z * nat * string) :=
  match s with
  | EmptyString => Some (acc, count, EmptyString)
  | String c rest =>
      match digit_of c with
      | Some d => scan_digits (10 * acc + d) (S count) rest
      | None =>
          if Ascii.eqb c "_"%char then
            match rest with
            | String c' rest' =>
                match digit_of c' with
                | Some d => scan_digits (10 * acc + d) (S count) rest'
                | None => None
                end
            | EmptyString => None
            end
          else Some (acc, count, s)
      end
  end.

(** The scan of a literal, which starts with a digit. *)
Definition scan_literal (s : string) : option (Z * nat * string) :=
  match s with
  | String c rest =>
      match digit_of c with
      | Some d => scan_digits d 1 rest
      | None => None
      end
  | EmptyString => None
  end.

(** More digits than the limit allows; a literal of 640 digits or fewer is
    never refused. *)
Definition exceeds_limit (limit digits : nat) : bool :=
  ((640 <? digits) && (0 <? limit) && (limit <? digits))%nat.

Inductive int_outcome : Type :=
| Parsed (z : Z)
| Invalid
| TooLong (digits : nat).

(** A literal without sign: its digits, within the limit, and then white
    space up to the end. *)
Definition unsigned_literal (limit : nat) (s : string) : int_outcome :=
  match scan_literal s with
  | None => Invalid
  | Some (z, digits, rest) =>
      if exceeds_limit limit digits then TooLong digits
      else if only_spaces rest then Parsed z
      else Invalid
  end.

Definition negated (o : int_outcome) : int_outcome :=
  match o with
  | Parsed z => Parsed (- z)
  | Invalid => Invalid
  | TooLong digits => TooLong digits
  end.

(** [int(s)] for an ASCII text: leading white space, an optional sign, the
    literal. *)
Definition ascii_int (limit : nat) (s : string) : int_outcome :=
  match lstrip s with
  | String "+"%char rest => unsigned_literal limit rest
  | String "-"%char rest => negated (unsigned_literal limit rest)
  | t => unsigned_literal limit t
  end.

Definition hex_digit (n : nat) : string :=
  match nth_error (list_ascii_of_string "0123456789abcdef") n with
  | Some c => String c EmptyString
  | None => EmptyString
  end.

Fixpoint str_contains (c : ascii) (s : string) : bool :=
  match s with
  | String c' rest => Ascii.eqb c c' || str_contains c rest
  | EmptyString => false
  end.

Fixpoint repr_body (quote : ascii) (s : string) : string :=
  match s with
  | EmptyString => EmptyString
  | String c rest =>
      let n := nat_of_ascii c in
      (if Ascii.eqb c backslash then String backslash (String backslash EmptyString)
       else if Ascii.eqb c quote then String backslash (String quote EmptyString)
       else if (n =? 10)%nat then String backslash "n"
       else if (n =? 13)%nat then String backslash "r"
       else if (n =? 9)%nat then String backslash "t"
       else if ((n <? 32) || (n =? 127))%nat
            then String backslash "x" ++ hex_digit (n / 16) ++ hex_digit (n mod 16)
       else if (128 <=? n)%nat
            then String backslash "udc" ++ hex_digit (n / 16) ++ hex_digit (n mod 16)
       else String c EmptyString)
      ++ repr_body quote rest
  end.

(** [repr(s)] of an ASCII text.  A byte outside ASCII is shown as the lone
    surrogate that an interpreter with the ASCII encoding decodes it to. *)
Definition py_repr (s : string) : string :=
  let quote :=
    if str_contains "'"%char s && negb (str_contains dquote s)
    then dquote else "'"%char in
  String quote (repr_body quote s) ++ String quote EmptyString.

(** [str(n)] of a natural number. *)
Definition py_str_nat (n : nat) : string := NilZero.string_of_uint (Nat.to_uint n).

(** The ValueError for a text that is no literal; its message holds the
    first 200 characters of the text's [repr]. *)
Definition invalid_literal (s : string) : exn :=
  mk_exn "ValueError"
    ("invalid literal for int() with base 10: " ++ substring 0 200 (py_repr s)).

(** The ValueError for a literal with more digits than the limit allows. *)
Definition too_many_digits (limit digits : nat) : exn :=
  mk_exn "ValueError"
    ("Exceeds the limit (" ++ py_str_nat limit
     ++ " digits) for integer string conversion: value has "
     ++ py_str_nat digits
     ++ " digits; use sys.set_int_max_str_digits() to increase the limit").

(** [int(s)] for a string. *)
Definition int_of_str (R : Runtime) (s : string) : result Z :=
  if all_ascii s then
    match ascii_int (int_max_str_digits R) s with
    | Parsed z => Ok z
    | Invalid => Raise (invalid_literal s)
    | TooLong digits => Raise (too_many_digits (int_max_str_digits R) digits)
    end
  else
    match int_of_text R s with
    | Some z => Ok z
    | None => Raise (mk_exn "ValueError" (int_error_of_text R s))
    end.

Definition int_type_error : exn :=
  mk_exn "TypeError"
    "int() argument must be a string, a bytes-like object or a number".

(** [int(v)] *)
Definition py_int (R : Runtime) (v : PyVal) : result Z :=
  match v with
  | PInt z => Ok z
  | PBool b => Ok (if b then 1 else 0)%Z
  | PFloat q => Ok (Z.quot (Qnum q) (Z.pos (Qden q)))
  | PStr s => int_of_str R s
  | PNone | PDict _ => Raise int_type_error
  end.

(* ================================================================= *)
(** ** The search space *)

(** The expressions [hp.*] builds.  A plain Python value given as an option
    of [hp.choice] is a literal. *)
Inductive expr : Type :=
| Lit (v : PyVal)
| hp_uniform (label : string) (low high : Q)
| hp_loguniform (label : string) (low high : Q)
| hp_quniform (label : string) (low high q : Q)
| hp_choice (label : string) (options : list expr).

Definition Space : Type := list (string * expr).

Definition space : Space :=
  [ ("lr_rate_mult", hp_loguniform "lr_rate_mult" (-0.5) 0.5);
    ("l2_weight_reg_mult", hp_loguniform "l2_weight_reg_mult" (-1.3) 1.3);
    ("batch_size", hp_quniform "batch_size" 100 450 5);
    ("optimizer",
      hp_choice "optimizer"
        [Lit (PStr "Adam"); Lit (PStr "Nadam"); Lit (PStr "RMSprop")]);
    ("coarse_labels_weight", hp_uniform "coarse_labels_weight" 0.1 0.7);
    ("conv_dropout_drop_proba", hp_uniform "conv_dropout_proba" 0.0 0.35);
    ("fc_dropout_drop_proba", hp_uniform "fc_dropout_proba" 0.0 0.6);
    ("use_BN", hp_choice "use_BN" [Lit (PBool false); Lit (PBool true)]);
    ("first_conv",
      hp_choice "first_conv"
        [Lit PNone; hp_choice "first_conv_size" [Lit (PInt 3); Lit (PInt 4)]]);
    ("residual",
      hp_choice "residual"
        [Lit PNone; hp_quniform "residual_units" (1 - 0.499) (4 + 0.499) 1]);
    ("conv_hiddn_units_mult", hp_loguniform "conv_hiddn_units_mult" (-0.6) 0.6);
    ("nb_conv_pool_layers",
      hp_choice "nb_conv_pool_layers" [Lit (PInt 2); Lit (PInt 3)]);
    ("conv_pool_res_start_idx", hp_quniform "conv_pool_res_start_idx" 0 2 1);
    ("pooling_type",
      hp_choice "pooling_type"
        [Lit (PStr "max"); Lit (PStr "avg"); Lit (PStr "all_conv");
         Lit (PStr "inception")]);
    ("conv_kernel_size", hp_quniform "conv_kernel_size" 2 4 1);
    ("res_conv_kernel_size", hp_quniform "res_conv_kernel_size" 2 4 1);
    ("fc_units_1_mult", hp_loguniform "fc_units_1_mult" (-0.6) 0.6);
    ("one_more_fc",
      hp_choice "one_more_fc"
        [Lit PNone; hp_loguniform "fc_units_2_mult" (-0.6) 0.6]);
    ("activation", hp_choice "activation" [Lit (PStr "relu"); Lit (PStr "elu")])
  ]%Q.

(** *** The kinds of distribution a declaration can have *)

Definition is_uniform (e : expr) : bool :=
  match e with hp_uniform _ _ _ => true | _ => false end.

Definition is_loguniform (e : expr) : bool :=
  match e with hp_loguniform _ _ _ => true | _ => false end.

Definition is_quniform (e : expr) : bool :=
  match e with hp_quniform _ _ _ _ => true | _ => false end.

Definition is_literal (e : expr) : bool :=
  match e with Lit _ => true | _ => false end.

Definition is_none_literal (e : expr) : bool :=
  match e with Lit PNone => true | _ => false end.

(** A choice among a fixed ordered list of plain values. *)
Definition is_categorical (e : expr) : bool :=
  match e with
  | hp_choice _ options => negb (Nat.eqb (List.length options) 0) && forallb is_literal options
  | _ => false
  end.

(** A choice with an option [None] and an option that is itself a
    distribution. *)
Definition is_conditional (e : expr) : bool :=
  match e with
  | hp_choice _ options =>
      existsb is_none_literal options
      && existsb (fun o => negb (is_literal o)) options
  | _ => false
  end.

Definition declares (kind : expr -> bool) (sp : Space) : bool :=
  existsb (fun kv => kind (snd kv)) sp.

(* ================================================================= *)
(** ** The world the script acts on *)

(** A Keras model is known by the hyperspace it was built from. *)
Record Model : Type := mk_model { built_from : Config }.

Inductive level : Type := DEBUG | INFO | WARN.

Inductive algo : Type := tpe_suggest.

(** The value of a keyword argument of the call to [hyper_tune]. *)
Inductive kwval : Type :=
| KAlgo (a : algo)
| KInt (n : Z).

Definition kwargs : Type := list (string * kwval).

(** What the script does to the outside, one entry per call. *)
Inductive Event : Type :=
| ESetVerbosity (l : level)
| ELog (l : level) (msg : PyVal) (args : list PyVal)  (* a call of tf.logging *)
| EMakedirs (path : string)
| EBuildModel (hyperspace : Config)
| EPlotModel (m : Model) (to_file : string) (show_shapes : bool)
| EClearSession
| EDel (name : string)
| EHyperTune (sp : Space) (kw : kwargs)
| ELoadBest
| EPrintJson (c : Config).

Section Script.

(** [Store] is the persisted history of trials that [hyper_tune] and
    [load_best_hyperspace] work on; [Objective] is the type of the function
    handed to the optimizer. *)
Context {Store Objective : Type}.

Record World : Type := mk_world {
  w_trace : list Event;             (* the calls made so far, oldest first *)
  w_dirs : list string;             (* the directories that exist *)
  w_files : list (string * Model);  (* the diagrams written, newest first *)
  w_session : list Model;           (* the models alive in the backend session *)
  w_store : Store
}.

(** The functions the script imports. *)
Record Collaborators : Type := mk_collaborators {
  (* gradient_sdk.model_dir: the folder of an experiment, or None *)
  model_dir : option string -> option string;
  (* os.makedirs: the error it raises on a path, if any *)
  makedirs_error : string -> option exn;
  (* neural_net.build_model: the error it raises on a hyperspace, if any *)
  build_model_error : Config -> option exn;
  (* keras.utils.plot_model: the error it raises, if any *)
  plot_model_error : Model -> string -> option exn;
  (* utils.is_gpu_available *)
  is_gpu_available : bool;
  (* utils.load_best_hyperspace: a hyperspace, None, or an error *)
  load_best_hyperspace : Store -> result (option Config);
  (* optimize_cnn.optimize_cnn, the objective *)
  optimize_cnn : Objective;
  (* gradient_sdk.hyper_parameter.hyper_tune(objective, space, **kwargs) *)
  hyper_tune : Objective -> Space -> kwargs -> Store -> result PyVal * Store;
  (* traceback.format_exc() while [e] is being handled *)
  format_exc : exn -> string;
  (* the interpreter, for the built-in int *)
  runtime : Runtime
}.

(** *** Statements: a state and exception monad *)

Definition M (A : Type) : Type := World -> result A * World.

Definition ret {A : Type} (a : A) : M A := fun w => (Ok a, w).

Definition raise {A : Type} (e : exn) : M A := fun w => (Raise e, w).

Definition bind {A B : Type} (m : M A) (k : A -> M B) : M B :=
  fun w =>
    match m w with
    | (Ok a, w') => k a w'
    | (Raise e, w') => (Raise e, w')
    end.

(** [try: body  except Exception as err: handler err] *)
Definition try_except {A : Type} (body : M A) (handler : exn -> M A) : M A :=
  fun w =>
    match body w with
    | (Ok a, w') => (Ok a, w')
    | (Raise e, w') => handler e w'
    end.

Definition lift_result {A : Type} (r : result A) : M A := fun w => (r, w).

Definition emit (ev : Event) : M unit :=
  fun w =>
    (Ok tt,
     mk_world (w_trace w ++ [ev]) (w_dirs w) (w_files w) (w_session w) (w_store w)).

Definition raise_if (err : option exn) : M unit :=
  match err with
  | Some e => raise e
  | None => ret tt
  end.

Fixpoint for_each {A : Type} (xs : list A) (body : A -> M unit) : M unit :=
  match xs with
  | [] => ret tt
  | x :: rest => bind (body x) (fun _ => for_each rest body)
  end.

End Script.

Arguments World : clear implicits.
Arguments Collaborators : clear implicits.
Arguments M : clear implicits.

Declare Scope py_scope.
Delimit Scope py_scope with py.
Notation "x <- m ;; k" := (bind m (fun x => k))
  (at level 61, m at next level, right associativity) : py_scope.
Notation "m ;; k" := (bind m (fun _ => k))
  (at level 61, right associativity) : py_scope.
Open Scope py_scope.

Section Program.

Context {Store Objective : Type}.
Variable C : Collaborators Store Objective.
Variable environ : Env.

#[local] Abbreviation Stmt := (M Store).

(** *** Logging and the collaborators' effects *)

Definition set_verbosity (l : level) : Stmt unit := emit (ESetVerbosity l).

Definition log (l : level) (msg : PyVal) (args : list PyVal) : Stmt unit :=
  emit (ELog l msg args).

Definition log_debug (msg : string) : Stmt unit := log DEBUG (PStr msg) [].
Definition log_info (msg : string) : Stmt unit := log INFO (PStr msg) [].
Definition log_warning (msg : string) : Stmt unit := log WARN (PStr msg) [].

(** [os.path.exists] *)
Definition path_exists (path : string) : Stmt bool :=
  fun w => (Ok (existsb (String.eqb path) (w_dirs w)), w).

(** [os.makedirs] *)
Definition makedirs (path : string) : Stmt unit :=
  emit (EMakedirs path) ;;
  raise_if (makedirs_error C path) ;;
  fun w =>
    (Ok tt,
     mk_world (w_trace w) (path :: w_dirs w) (w_files w) (w_session w) (w_store w)).

(** [build_model]: the model's layers are made in the backend session. *)
Definition build_model (hyperspace : Config) : Stmt Model :=
  emit (EBuildModel hyperspace) ;;
  raise_if (build_model_error C hyperspace) ;;
  fun w =>
    let m := mk_model hyperspace in
    (Ok m,
     mk_world (w_trace w) (w_dirs w) (w_files w) (m :: w_session w) (w_store w)).

(** [plot_model(model, to_file=..., show_shapes=...)] *)
Definition plot_model (m : Model) (to_file : string) (show_shapes : bool)
  : Stmt unit :=
  emit (EPlotModel m to_file show_shapes) ;;
  raise_if (plot_model_error C m to_file) ;;
  fun w =>
    (Ok tt,
     mk_world (w_trace w) (w_dirs w) ((to_file, m) :: w_files w) (w_session w)
       (w_store w)).

(** [K.clear_session()] *)
Definition clear_session : Stmt unit :=
  emit EClearSession ;;
  fun w => (Ok tt, mk_world (w_trace w) (w_dirs w) (w_files w) [] (w_store w)).

(** [del name]: the local name is unbound. *)
Definition del (name : string) : Stmt unit := emit (EDel name).

Definition print_json (c : Config) : Stmt unit := emit (EPrintJson c).

Definition call_load_best_hyperspace : Stmt (option Config) :=
  emit ELoadBest ;;
  fun w => (load_best_hyperspace C (w_store w), w).

Definition call_hyper_tune (objective : Objective) (sp : Space) (kw : kwargs)
  : Stmt PyVal :=
  emit (EHyperTune sp kw) ;;
  fun w =>
    let '(r, s) := hyper_tune C objective sp kw (w_store w) in
    (r, mk_world (w_trace w) (w_dirs w) (w_files w) (w_session w) s).

(** *** Module level *)

Definition MAX_EVALS : PyVal := environ_get environ "HKS_MAX_EVALS" (PInt 5).

Definition EXPERIMENT_NAME : option string := dict_get environ "EXPERIMENT_NAME".

Definition PLOT_FOLDER_PATH : option string := model_dir C EXPERIMENT_NAME.

Definition WORKING_ENVIRONMENT : PyVal :=
  environ_get environ "HKS_ENVIRONMENT" (PStr "paperspace").

(** The truth value of a string or None. *)
Definition truthy (v : option string) : bool :=
  match v with
  | Some (String _ _) => true
  | Some EmptyString | None => false
  end.

Definition str_of (v : option string) : string :=
  match v with
  | Some s => s
  | None => "None"
  end.

(** *** [plot] *)

Definition plot (hyperspace : Config) (file_name_prefix : string) : Stmt unit :=
  filename <-
    (if truthy PLOT_FOLDER_PATH then
       there <- path_exists (str_of PLOT_FOLDER_PATH) ;;
       (if negb there then makedirs (str_of PLOT_FOLDER_PATH) else ret tt) ;;
       ret (str_of PLOT_FOLDER_PATH ++ "/" ++ file_name_prefix ++ ".png")
     else
       ret (file_name_prefix ++ ".png")) ;;
  model <- build_model hyperspace ;;
  plot_model model filename true ;;
  clear_session ;;
  del "model".

Definition space_base_demo_to_plot : Config :=
  [ ("lr_rate_mult", PFloat 1.0);
    ("l2_weight_reg_mult", PFloat 1.0);
    ("batch_size", PInt 300);
    ("optimizer", PStr "Nadam");
    ("coarse_labels_weight", PFloat 0.2);
    ("conv_dropout_drop_proba", PFloat 0.175);
    ("fc_dropout_drop_proba", PFloat 0.3);
    ("use_BN", PBool true);
    ("first_conv", PInt 4);
    ("residual", PInt 4);
    ("conv_hiddn_units_mult", PFloat 1.0);
    ("nb_conv_pool_layers", PInt 3);
    ("conv_pool_res_start_idx", PFloat 0.0);
    ("pooling_type", PStr "inception");
    ("conv_kernel_size", PFloat 3.0);
    ("res_conv_kernel_size", PFloat 3.0);
    ("fc_units_1_mult", PFloat 1.0);
    ("one_more_fc", PFloat 1.0);
    ("activation", PStr "elu")
  ]%Q.

Definition plot_base_model : Stmt unit :=
  plot space_base_demo_to_plot "model_demo".

(** *** [plot_best_model] *)

Definition plot_best_model : Stmt unit :=
  space_best_model <- call_load_best_hyperspace ;;
  match space_best_model with
  | None => log_info "No best model to plot. Continuing..."
  | Some best =>
      log_info "Best hyperspace yet:" ;;
      print_json best ;;
      plot best "model_best"
  end.

(** *** [run_a_trial] *)

Definition hyper_tune_kwargs (max_evals : Z) : kwargs :=
  [("algo", KAlgo tpe_suggest); ("max_evals", KInt max_evals)].

(** The objective that [run_a_trial] imports from [optimize_cnn] is the
    collaborator [optimize_cnn]. *)
Definition run_a_trial : Stmt PyVal :=
  log_info "Attempt to resume a past training if it exists:" ;;
  log_info "Running HyperTune..." ;;
  log INFO (PStr "Max evals: %s") [MAX_EVALS] ;;
  max_evals <- lift_result (py_int (runtime C) MAX_EVALS) ;;
  best <- call_hyper_tune (optimize_cnn C) space (hyper_tune_kwargs max_evals) ;;
  log INFO (PStr "Best: %s") [best] ;;
  ret best.

(** What [run_a_trial] logs before it converts [MAX_EVALS]. *)
Definition run_a_trial_preamble : list Event :=
  [ ELog INFO (PStr "Attempt to resume a past training if it exists:") [];
    ELog INFO (PStr "Running HyperTune...") [];
    ELog INFO (PStr "Max evals: %s") [MAX_EVALS] ].

(** *** The main program *)

Fixpoint str_repeat (s : string) (n : nat) : string :=
  match n with
  | O => EmptyString
  | S k => s ++ str_repeat s k
  end.

Definition banner : string :=
  str_repeat "=" 20 ++ " Environment Variables " ++ str_repeat "=" 20.

Definition log_environ : Stmt unit :=
  log_debug banner ;;
  for_each environ (fun kv => log_debug (fst kv ++ ": " ++ snd kv)).

(** The [try] statement around the optimisation step. *)
Definition optimization_step : Stmt unit :=
  try_except
    (best <- run_a_trial ;;
     log INFO best [] ;;
     log_info (nl ++ "OPTIMIZATION STEP COMPLETE." ++ nl))
    (fun err =>
       log_info (exn_str err) ;;
       log_info (format_exc C err)).

Definition msg_plotting_demo : string :=
  "Plotting a demo model that would represent "
  ++ "a quite normal model (or a bit more huge), "
  ++ "and then the best model...".

Definition msg_train_many : string :=
  "Now, we train many models, one after the other. "
  ++ "Note that hyperopt has support for cloud "
  ++ "distributed training using MongoDB.".

Definition msg_results_saved : string :=
  nl ++ "Your results will be saved in the folder named 'results/'. "
  ++ "You can sort that alphabetically and take the greatest one. "
  ++ "As you run the optimization, results are consinuously saved into a "
  ++ "'results.pkl' file, too. Re-running optimize.py will resume "
  ++ "the meta-optimization." ++ nl.

Definition main : Stmt unit :=
  set_verbosity DEBUG ;;
  log_environ ;;
  (if negb (is_gpu_available C) then log_warning "GPUs are not available"
   else ret tt) ;;
  log_info msg_plotting_demo ;;
  plot_base_model ;;
  log_info msg_train_many ;;
  log_info msg_results_saved ;;
  log_info "OPTIMIZING NEW MODEL:" ;;
  optimization_step ;;
  log_info "PLOTTING BEST MODEL:" ;;
  plot_best_model.

(** The statements of [main] from the plot of the demo model on. *)
Definition main_from_demo_plot : Stmt unit :=
  plot_base_model ;;
  log_info msg_train_many ;;
  log_info msg_results_saved ;;
  log_info "OPTIMIZING NEW MODEL:" ;;
  optimization_step ;;
  log_info "PLOTTING BEST MODEL:" ;;
  plot_best_model.

(** What [main] has logged when it comes to plot the demo model, and what
    it logs between that plot and the optimisation step. *)
Definition environ_lines : list Event :=
  map (fun kv => ELog DEBUG (PStr (fst kv ++ ": " ++ snd kv)) []) environ.

Definition main_opening : list Event :=
  ([ESetVerbosity DEBUG; ELog DEBUG (PStr banner) []]
   ++ environ_lines
   ++ (if negb (is_gpu_available C)
       then [ELog WARN (PStr "GPUs are not available") []] else [])
   ++ [ELog INFO (PStr msg_plotting_demo) []])%list.

Definition main_before_step : list Event :=
  [ ELog INFO (PStr msg_train_many) [];
    ELog INFO (PStr msg_results_saved) [];
    ELog INFO (PStr "OPTIMIZING NEW MODEL:") [] ].

End Program.

(* ================================================================= *)
(** ** The search loop behind [hyper_tune] *)

(** [hyper_tune] (gradient_sdk, on top of hyperopt) and the objective's
    module are not among the sources.  This section gives them the behaviour
    the specification describes, for the claims that are about the loop. *)

(** Modelled from the spec: the status of a TrialResult (section 3), ok or
    failed; the type is missing with the results store. *)
Inductive Status : Type := status_ok | status_failed.

(** Modelled from the spec: TrialResult (section 3), the record of one
    evaluation.  The results store is not among the sources. *)
Record TrialResult : Type := mk_trial {
  tr_config : Config;
  tr_metric : option Q;
  tr_status : Status;
  tr_diagnostic : option string
}.

(** Modelled from the spec: the contents of the ResultStore (section 3), the
    list of the TrialResults recorded so far, oldest first; the store is
    missing from the sources. *)
Definition ResultStore : Type := list TrialResult.

(** Modelled from the spec: the evaluator collaborator (section 6), missing
    from the sources ([optimize_cnn.py]): given a configuration it returns a
    loss and a status, or raises. *)
Definition Evaluator : Type := Config -> result (Q * Status).

(** Modelled from the spec: the external optimizer of step 2a (section 4.4),
    missing from the sources: its choice of the next configuration, from the
    space and the history so far. *)
Definition Suggest : Type := Space -> ResultStore -> Config.

(** Modelled from the spec: TrialRunner.run (section 4.2), missing from the
    sources with the rest of the optimizer.  The evaluator runs inside a
    failure boundary: what it raises becomes a failed TrialResult that holds
    the diagnostic text; the result is appended to the store once. *)
Definition trial_result (evaluator : Evaluator) (configuration : Config)
  : TrialResult :=
  match evaluator configuration with
  | Ok (loss, status) => mk_trial configuration (Some loss) status None
  | Raise e => mk_trial configuration None status_failed (Some (exn_str e))
  end.

(** Modelled from the spec: the side effect of TrialRunner.run (section
    4.2), missing from the sources: the result is appended to the store. *)
Definition trial_runner_run (evaluator : Evaluator) (configuration : Config)
    (store : ResultStore) : ResultStore :=
  (store ++ [trial_result evaluator configuration])%list.

Definition is_status_ok (tr : TrialResult) : bool :=
  match tr_status tr with status_ok => true | status_failed => false end.

(** Modelled from the spec: the comparison the design notes recommend
    (section 9), minimize; a result without a metric is never the better. *)
Definition strictly_better (a b : TrialResult) : bool :=
  match tr_metric a, tr_metric b with
  | Some x, Some y => negb (Qle_bool y x)
  | Some _, None => true
  | None, _ => false
  end.

(** Modelled from the spec: the BestRecord (section 3) of [store] when
    [current] is the best of what came before it; failed trials are left
    out, the first seen wins a tie. *)
Fixpoint best_from (current : option TrialResult) (store : ResultStore)
  : option TrialResult :=
  match store with
  | [] => current
  | tr :: rest =>
      let current' :=
        if is_status_ok tr then
          match current with
          | None => Some tr
          | Some b => if strictly_better tr b then Some tr else current
          end
        else current in
      best_from current' rest
  end.

(** Modelled from the spec: ResultStore.best (section 4.3): the ok-status
    result with the lowest metric, the first seen on a tie, or none. *)
Definition store_best (store : ResultStore) : option TrialResult :=
  best_from None store.

(** Modelled from the spec: the loop of SearchLoop.optimize (section 4.4),
    missing from the sources, with [remaining] the trials still to run
    ([max_evals] less the trials completed in this run): ask the optimizer
    for the next configuration, run it through the trial runner, go on. *)
Fixpoint search_loop (suggest : Suggest) (evaluator : Evaluator) (sp : Space)
    (remaining : nat) (store : ResultStore) : ResultStore :=
  match remaining with
  | O => store
  | S k =>
      let configuration := suggest sp store in
      search_loop suggest evaluator sp k
        (trial_runner_run evaluator configuration store)
  end.

(** What the loop returns for the best record: its configuration, or None. *)
Definition best_value (store : ResultStore) : PyVal :=
  match store_best store with
  | Some tr => PDict (tr_config tr)
  | None => PNone
  end.

(** Modelled from the spec: SearchLoop.optimize (section 4.4) as the body of
    [hyper_tune], which is gradient_sdk's and not among the sources: run
    [max_evals] trials on top of the loaded history, return the best record. *)
Definition search_loop_optimize (suggest : Suggest) (evaluator : Evaluator)
    (sp : Space) (kw : kwargs) (store : ResultStore)
  : result PyVal * ResultStore :=
  match dict_get kw "max_evals" with
  | Some (KInt max_evals) =>
      let store' := search_loop suggest evaluator sp (Z.to_nat max_evals) store in
      (Ok (best_value store'), store')
  | _ => (Raise (mk_exn "TypeError" "max_evals must be an integer"), store)
  end.

(** The script's collaborators with the loop above for [hyper_tune] and
    [evaluator] for the objective; the other collaborators are those of [C]. *)
Definition with_search_loop (suggest : Suggest) (evaluator : Evaluator)
    (C : Collaborators ResultStore Evaluator) : Collaborators ResultStore Evaluator :=
  mk_collaborators (model_dir C) (makedirs_error C) (build_model_error C)
    (plot_model_error C) (is_gpu_available C) (load_best_hyperspace C)
    evaluator (fun objective => search_loop_optimize suggest objective)
    (format_exc C) (runtime C).

(** The trials a run of [n] iterations adds to [store], oldest first. *)
Fixpoint trials_added (suggest : Suggest) (evaluator : Evaluator) (sp : Space)
    (n : nat) (store : ResultStore) : list TrialResult :=
  match n with
  | O => []
  | S k =>
      let tr := trial_result evaluator (suggest sp store) in
      tr :: trials_added suggest evaluator sp k (store ++ [tr])%list
  end.

(** A failed result that holds a diagnostic text. *)
Definition is_failed_with_text (tr : TrialResult) : bool :=
  match tr_status tr, tr_diagnostic tr with
  | status_failed, Some _ => true
  | _, _ => false
  end.

(* ================================================================= *)
(** ** Sampling from the space *)

(** A sampled value: a plain Python value or a real number. *)
Inductive sval : Type :=
| SVal (v : PyVal)
| SNum (x : R).

(** Modelled from the spec: the rounding of a quantized parameter (section
    4.1), hyperopt's and missing from the sources: [r] is a multiple of the
    step [q] nearest to [u]. *)
Definition nearest_multiple (q u r : R) : Prop :=
  exists k : Z, r = (IZR k * q)%R /\ (Rabs (u / q - IZR k) <= 1 / 2)%R.

(** Modelled from the spec: sampling (section 4.1), which is hyperopt's and
    not among the sources.  Uniform: a value between the bounds; log-uniform:
    the exponential of an exponent sampled uniformly between the bounds;
    quantized: a uniform value rounded to the nearest multiple of the step;
    choice: one of the options, sampled in its turn when it is a
    distribution. *)
Inductive draws : expr -> sval -> Prop :=
| draws_literal (v : PyVal) :
    draws (Lit v) (SVal v)
| draws_uniform (label : string) (low high : Q) (x : R) :
    (Q2R low <= x <= Q2R high)%R ->
    draws (hp_uniform label low high) (SNum x)
| draws_loguniform (label : string) (low high : Q) (u : R) :
    (Q2R low <= u <= Q2R high)%R ->
    draws (hp_loguniform label low high) (SNum (exp u))
| draws_quniform (label : string) (low high q : Q) (u r : R) :
    (Q2R low <= u <= Q2R high)%R ->
    nearest_multiple (Q2R q) u r ->
    draws (hp_quniform label low high q) (SNum r)
| draws_choice (label : string) (options : list expr) (o : expr) (v : sval) :
    In o options ->
    draws o v ->
    draws (hp_choice label options) v.

(** How a log-uniform declaration bounds a value [x]: between the declared
    numbers themselves, or with its logarithm between them. *)
Definition bounds_the_value (low high : Q) (x : R) : Prop :=
  (Q2R low <= x <= Q2R high)%R.

Definition bounds_the_logarithm (low high : Q) (x : R) : Prop :=
  (0 < x)%R /\ (Q2R low <= ln x <= Q2R high)%R.

(** A value lies within what a declaration allows. *)
Inductive within (log_bounds : Q -> Q -> R -> Prop) : expr -> sval -> Prop :=
| within_literal (v : PyVal) :
    within log_bounds (Lit v) (SVal v)
| within_uniform (label : string) (low high : Q) (x : R) :
    (Q2R low <= x <= Q2R high)%R ->
    within log_bounds (hp_uniform label low high) (SNum x)
| within_loguniform (label : string) (low high : Q) (x : R) :
    log_bounds low high x ->
    within log_bounds (hp_loguniform label low high) (SNum x)
| within_quniform (label : string) (low high q : Q) (x : R) :
    (exists k : Z, x = (IZR k * Q2R q)%R) ->
    (Q2R low <= x <= Q2R high)%R ->
    within log_bounds (hp_quniform label low high q) (SNum x)
| within_choice (label : string) (options : list expr) (o : expr) (v : sval) :
    In o options ->
    within log_bounds o v ->
    within log_bounds (hp_choice label options) v.

(** A declaration whose quantized values cannot leave their bounds: for
    each [hp_quniform] there are a least step [a] and a greatest step [b]
    between the bounds, and no value between the bounds is nearer to the
    step below [a] or to the step above [b]. *)
Inductive rounds_inside : expr -> Prop :=
| rounds_inside_literal (v : PyVal) :
    rounds_inside (Lit v)
| rounds_inside_uniform (label : string) (low high : Q) :
    rounds_inside (hp_uniform label low high)
| rounds_inside_loguniform (label : string) (low high : Q) :
    rounds_inside (hp_loguniform label low high)
| rounds_inside_quniform (label : string) (low high q : Q) (a b : Z) :
    (0 < Q2R q)%R ->
    ((IZR a - 1 / 2) * Q2R q < Q2R low <= IZR a * Q2R q)%R ->
    (IZR b * Q2R q <= Q2R high < (IZR b + 1 / 2) * Q2R q)%R ->
    rounds_inside (hp_quniform label low high q)
| rounds_inside_choice (label : string) (options : list expr) :
    (forall o : expr, In o options -> rounds_inside o) ->
    rounds_inside (hp_choice label options).

Definition residual_units : expr :=
  hp_quniform "residual_units" (1 - 0.499)%Q (4 + 0.499)%Q 1%Q.

(* ================================================================= *)
(** ** Reading a trace *)

Section Observations.

Context {Store : Type}.

(** The world after more calls have been recorded. *)
Definition with_events (w : World Store) (evs : list Event) : World Store :=
  mk_world (w_trace w ++ evs) (w_dirs w) (w_files w) (w_session w) (w_store w).

(** The calls made between the world [w] and the later world [w']. *)
Definition events_since (w w' : World Store) : list Event :=
  skipn (List.length (w_trace w)) (w_trace w').

(** A later world: the trace has grown at its end. *)
Definition extends (w w' : World Store) : Prop :=
  exists evs : list Event, w_trace w' = (w_trace w ++ evs)%list.

End Observations.

Definition is_debug_line (ev : Event) : bool :=
  match ev with
  | ELog DEBUG _ _ => true
  | _ => false
  end.

(** A trace without its DEBUG log lines. *)
Definition audible (evs : list Event) : list Event :=
  filter (fun ev => negb (is_debug_line ev)) evs.

Section TwoRuns.

Context {Store : Type}.

(** Two worlds that differ at most in the DEBUG lines logged so far. *)
Definition same_but_debug (w1 w2 : World Store) : Prop :=
  audible (w_trace w1) = audible (w_trace w2)
  /\ w_dirs w1 = w_dirs w2
  /\ w_files w1 = w_files w2
  /\ w_session w1 = w_session w2
  /\ w_store w1 = w_store w2.

(** Two statements that, from such worlds, end in the same way and in such
    worlds again. *)
Definition alike {A : Type} (m1 m2 : M Store A) : Prop :=
  forall w1 w2 : World Store,
    same_but_debug w1 w2 ->
    fst (m1 w1) = fst (m2 w2) /\ same_but_debug (snd (m1 w1)) (snd (m2 w2)).

End TwoRuns.

(** The calls to [hyper_tune] in a trace: the space and keywords of each. *)
Fixpoint hyper_tune_calls (evs : list Event) : list (Space * kwargs) :=
  match evs with
  | [] => []
  | EHyperTune sp kw :: rest => (sp, kw) :: hyper_tune_calls rest
  | _ :: rest => hyper_tune_calls rest
  end.

(** The hyperspaces printed by [print_json] in a trace. *)
Fixpoint printed_json (evs : list Event) : list Config :=
  match evs with
  | [] => []
  | EPrintJson c :: rest => c :: printed_json rest
  | _ :: rest => printed_json rest
  end.

(** The diagrams [plot_model] was asked for in a trace. *)
Fixpoint plot_model_calls (evs : list Event) : list (Model * string * bool) :=
  match evs with
  | [] => []
  | EPlotModel m f b :: rest => (m, f, b) :: plot_model_calls rest
  | _ :: rest => plot_model_calls rest
  end.

(** The path the specification gives a diagram: in the plot folder when one
    is configured, in the working directory otherwise. *)
Definition claimed_plot_path (folder : option string) (prefix : string) : string :=
  match folder with
  | Some (String c rest) => String c rest ++ "/" ++ prefix ++ ".png"
  | Some EmptyString | None => prefix ++ ".png"
  end.

(* ================================================================= *)
(** ** Concrete set-ups, to run the script on *)

Definition lab_model_dir (name : option string) : option string :=
  match name with
  | Some n => Some ("/storage/models/" ++ n)
  | None => None
  end.

(** An interpreter whose encoding for the environment is ASCII, with the
    limit of 4300 digits.  It decodes a byte outside ASCII to a lone
    surrogate, which is neither white space nor a digit: the conversion
    scans the text up to the first such character, with a question mark in
    its place, and the text is no integer. *)
Fixpoint lab_scanned_text (s : string) : string :=
  match s with
  | EmptyString => EmptyString
  | String c rest =>
      if (nat_of_ascii c <? 127)%nat then String c (lab_scanned_text rest)
      else "?"
  end.

Definition lab_int_error (s : string) : string :=
  match ascii_int 4300 (lab_scanned_text s) with
  | TooLong digits => exn_str (too_many_digits 4300 digits)
  | Parsed _ | Invalid => exn_str (invalid_literal s)
  end.

Definition lab_runtime : Runtime :=
  mk_runtime (fun _ => None) lab_int_error 4300.

Definition lab_format_exc (e : exn) : string :=
  "Traceback (most recent call last):" ++ nl ++ exn_class e ++ ": " ++ exn_str e.

Definition lab_load_best (store : ResultStore) : result (option Config) :=
  Ok (option_map tr_config (store_best store)).

(** An optimizer that numbers its candidates. *)
Definition lab_suggest : Suggest :=
  fun _ store => [("candidate", PInt (Z.of_nat (List.length store)))].

(** An evaluator that raises on every configuration. *)
Definition raising_evaluator : Evaluator :=
  fun _ => Raise (mk_exn "ValueError" "Negative dimension size caused by subtracting 3 from 2").

(** An evaluator that raises on the candidates with an odd number. *)
Definition flaky_evaluator : Evaluator :=
  fun c =>
    match dict_get c "candidate" with
    | Some (PInt z) =>
        if Z.odd z then Raise (mk_exn "ValueError" "loss is NaN")
        else Ok ((1 # 2)%Q, status_ok)
    | _ => Ok ((1 # 2)%Q, status_ok)
    end.

Definition lab (evaluator : Evaluator) : Collaborators ResultStore Evaluator :=
  mk_collaborators lab_model_dir (fun _ => None) (fun _ => None)
    (fun _ _ => None) false lab_load_best evaluator
    (fun objective => search_loop_optimize lab_suggest objective)
    lab_format_exc lab_runtime.



Definition fresh_world (store : ResultStore) : World ResultStore :=
  mk_world [] [] [] [] store.

Definition earlier_best : Config := [("candidate", PInt 0)].

(** A store left by an earlier run, with one ok-status trial. *)
Definition earlier_store : ResultStore :=
  [mk_trial earlier_best (Some (1 # 4)%Q) status_ok None].

Definition env_default : Env := [("HOME", "/root")].

Definition env_cifar : Env :=
  [("HOME", "/root"); ("EXPERIMENT_NAME", "cifar"); ("HKS_MAX_EVALS", "3")].


Definition env_bad_evals : Env := [("HKS_MAX_EVALS", "five")].

(** A digit after the control character 31, which [int] does not strip. *)
Definition env_separator_evals : Env :=
  [("HKS_MAX_EVALS", String "031"%char "7")].

Definition env_tag_local : Env :=
  [("HKS_MAX_EVALS", "7"); ("HKS_ENVIRONMENT", "local"); ("EXPERIMENT_NAME", "cifar")].

Definition env_tag_paperspace : Env :=
  [("HKS_MAX_EVALS", "7"); ("HKS_ENVIRONMENT", "paperspace");
   ("EXPERIMENT_NAME", "cifar")].

(* ================================================================= *)
(** ** More to read from a run *)

(** [str(z)] of an integer: its decimal digits, with a minus sign when it is
    negative. *)
Definition py_str_int (z : Z) : string := NilZero.string_of_int (Z.to_int z).

(** The number of decimal digits of an integer. *)
Definition decimal_digits (z : Z) : nat := String.length (py_str_int (Z.abs z)).

(** The paths [os.makedirs] was called on in a trace. *)
Fixpoint makedirs_calls (evs : list Event) : list string :=
  match evs with
  | [] => []
  | EMakedirs path :: rest => path :: makedirs_calls rest
  | _ :: rest => makedirs_calls rest
  end.

(** The files asked of [plot_model] in a trace. *)
Definition files_asked (evs : list Event) : list string :=
  map (fun call => snd (fst call)) (plot_model_calls evs).

Definition import_error : exn :=
  mk_exn "ImportError"
    "Failed to import pydot. You must install pydot and graphviz for `pydotprint` to work.".

(** The set-up of [lab] on a machine where [plot_model] cannot draw. *)
Definition lab_no_graphviz (evaluator : Evaluator)
  : Collaborators ResultStore Evaluator :=
  mk_collaborators lab_model_dir (fun _ => None) (fun _ => None)
    (fun _ _ => Some import_error) false lab_load_best evaluator
    (fun objective => search_loop_optimize lab_suggest objective)
    lab_format_exc lab_runtime.



Section SearchStore.

Context {Store Objective : Type}.
Variable C : Collaborators Store Objective.
Variable environ : Env.

(** The store after [run_a_trial]: what [hyper_tune] left when it was
    called, the store as it was when the conversion of [MAX_EVALS] failed. *)
Definition store_after_search (store : Store) : Store :=
  match py_int (runtime C) (MAX_EVALS environ) with
  | Ok n => snd (hyper_tune C (optimize_cnn C) space (hyper_tune_kwargs n) store)
  | Raise _ => store
  end.

(** The calls to the optimizer in a run of [run_a_trial]. *)
Definition search_calls : list (Space * kwargs) :=
  match py_int (runtime C) (MAX_EVALS environ) with
  | Ok n => [(space, hyper_tune_kwargs n)]
  | Raise _ => []
  end.

End SearchStore.

(** The number a Python value stands for, when it is an int or a float. *)
Definition as_number (v : PyVal) : option R :=
  match v with
  | PInt z => Some (IZR z)
  | PFloat q => Some (Q2R q)
  | _ => None
  end.

(** A declaration admits a Python value: the value, or the number it stands
    for, lies within the declaration. *)
Definition admits (e : expr) (v : PyVal) : Prop :=
  within bounds_the_logarithm e (SVal v)
  \/ exists x : R, as_number v = Some x /\ within bounds_the_logarithm e (SNum x).

Definition env_twelve : Env := [("HKS_MAX_EVALS", py_str_int 12)].

Definition env_blank_evals : Env := [("HKS_MAX_EVALS", "  ")].

(* ================================================================= *)
(** * Properties *)

Open Scope list_scope.

(** ** Traces *)

Section TraceFacts.

Context {Store : Type}.

Lemma with_events_nil (w : World Store) : with_events w [] = w.
Proof.
  destruct w; unfold with_events; simpl. now rewrite app_nil_r.
Qed.

Lemma with_events_app (w : World Store) (a b : list Event) :
  with_events (with_events w a) b = with_events w (a ++ b).
Proof.
  unfold with_events; simpl. now rewrite app_assoc.
Qed.

Lemma emit_with_events (ev : Event) (w : World Store) :
  emit ev w = (Ok tt, with_events w [ev]).
Proof. reflexivity. Qed.

Lemma events_since_with_events (w : World Store) (evs : list Event) :
  events_since w (with_events w evs) = evs.
Proof.
  unfold events_since, with_events; simpl.
  rewrite skipn_app, skipn_all, Nat.sub_diag. reflexivity.
Qed.

Lemma events_since_extended (w w' : World Store) (evs : list Event) :
  w_trace w' = w_trace w ++ evs -> events_since w w' = evs.
Proof.
  intros H. unfold events_since. rewrite H.
  rewrite skipn_app, skipn_all, Nat.sub_diag. reflexivity.
Qed.

End TraceFacts.

Lemma hyper_tune_calls_app (a b : list Event) :
  hyper_tune_calls (a ++ b) = hyper_tune_calls a ++ hyper_tune_calls b.
Proof.
  induction a as [|ev a IH]; simpl; [reflexivity|].
  destruct ev; simpl; rewrite ?IH; reflexivity.
Qed.

Lemma plot_model_calls_app (a b : list Event) :
  plot_model_calls (a ++ b) = plot_model_calls a ++ plot_model_calls b.
Proof.
  induction a as [|ev a IH]; simpl; [reflexivity|].
  destruct ev; simpl; rewrite ?IH; reflexivity.
Qed.

Lemma printed_json_app (a b : list Event) :
  printed_json (a ++ b) = printed_json a ++ printed_json b.
Proof.
  induction a as [|ev a IH]; simpl; [reflexivity|].
  destruct ev; simpl; rewrite ?IH; reflexivity.
Qed.

(** ** Dictionaries *)

Lemma dict_get_remove_other {A : Type} (d : list (string * A)) (k k' : string) :
  k <> k' -> dict_get (dict_remove k d) k' = dict_get d k'.
Proof.
  intros Hne. induction d as [|[k0 v] d IH]; simpl; [reflexivity|].
  destruct (String.eqb k0 k) eqn:E0; simpl.
  - apply String.eqb_eq in E0. subst k0.
    destruct (String.eqb k k') eqn:E1; [|exact IH].
    apply String.eqb_eq in E1. contradiction.
  - destruct (String.eqb k0 k'); [reflexivity|exact IH].
Qed.

(** ** [run_a_trial] *)

Section RunATrial.

Context {Store Objective : Type}.
Variable C : Collaborators Store Objective.
Variable environ : Env.

(** When the conversion fails, [run_a_trial] raises after its three log
    lines and before any call to the optimizer. *)
Lemma run_a_trial_conversion_fails (w : World Store) (e : exn) :
  py_int (runtime C) (MAX_EVALS environ) = Raise e ->
  run_a_trial C environ w = (Raise e, with_events w (run_a_trial_preamble environ)).
Proof.
  intros H. unfold run_a_trial, bind, log_info, log, lift_result.
  rewrite !emit_with_events, !with_events_app, H. reflexivity.
Qed.

(** When the conversion gives [n], the optimizer is called once, with the
    objective, the space, the algorithm and [n]. *)
Lemma run_a_trial_calls_hyper_tune (w : World Store) (n : Z) :
  py_int (runtime C) (MAX_EVALS environ) = Ok n ->
  run_a_trial C environ w =
  let w1 :=
    with_events w
      (run_a_trial_preamble environ ++ [EHyperTune space (hyper_tune_kwargs n)]) in
  let '(r, s) :=
    hyper_tune C (optimize_cnn C) space (hyper_tune_kwargs n) (w_store w) in
  match r with
  | Ok best =>
      (Ok best,
       mk_world (w_trace w1 ++ [ELog INFO (PStr "Best: %s") [best]])
         (w_dirs w) (w_files w) (w_session w) s)
  | Raise e =>
      (Raise e, mk_world (w_trace w1) (w_dirs w) (w_files w) (w_session w) s)
  end.
Proof.
  intros H. unfold run_a_trial, bind, log_info, log, lift_result, call_hyper_tune.
  rewrite !emit_with_events, !with_events_app, H.
  unfold bind. rewrite emit_with_events, with_events_app. simpl.
  destruct (hyper_tune C (optimize_cnn C) space (hyper_tune_kwargs n) (w_store w))
    as [[best|e] s]; reflexivity.
Qed.

Lemma run_a_trial_hyper_tune_calls (w : World Store) (n : Z) :
  py_int (runtime C) (MAX_EVALS environ) = Ok n ->
  hyper_tune_calls (events_since w (snd (run_a_trial C environ w)))
  = [(space, hyper_tune_kwargs n)].
Proof.
  intros H. rewrite (run_a_trial_calls_hyper_tune w n H). cbv zeta.
  destruct (hyper_tune C (optimize_cnn C) space (hyper_tune_kwargs n) (w_store w))
    as [[best|e] s]; cbn [snd];
    (erewrite events_since_extended
       by (cbn [w_trace with_events]; rewrite <- ?app_assoc; reflexivity));
    rewrite ?hyper_tune_calls_app; reflexivity.
Qed.

End RunATrial.

(** ** The evaluation budget *)

Section Budget.

Context {Store Objective : Type}.
Variable C : Collaborators Store Objective.
Variable environ : Env.

Lemma MAX_EVALS_unset :
  dict_get environ "HKS_MAX_EVALS" = None -> MAX_EVALS environ = PInt 5.
Proof. unfold MAX_EVALS, environ_get. now intros ->. Qed.

Lemma MAX_EVALS_set (s : string) :
  dict_get environ "HKS_MAX_EVALS" = Some s -> MAX_EVALS environ = PStr s.
Proof. unfold MAX_EVALS, environ_get. now intros ->. Qed.

(** C2. The search is bounded by a count of evaluations and nothing else:
    [run_a_trial] calls the optimizer once, with [max_evals] the integer
    value of HKS_MAX_EVALS, or 5 when the variable is absent; the only
    keywords of the call are [algo] and [max_evals], so no time limit and no
    convergence threshold is passed. *)
Theorem run_a_trial_budget_is_max_evals (w : World Store) :
  let calls :=
    hyper_tune_calls (events_since w (snd (run_a_trial C environ w))) in
  (dict_get environ "HKS_MAX_EVALS" = None ->
   calls = [(space, [("algo", KAlgo tpe_suggest); ("max_evals", KInt 5)])])
  /\ (forall (s : string) (n : Z),
         dict_get environ "HKS_MAX_EVALS" = Some s ->
         int_of_str (runtime C) s = Ok n ->
         calls = [(space, [("algo", KAlgo tpe_suggest); ("max_evals", KInt n)])])
  /\ (forall (sp : Space) (kw : kwargs),
         In (sp, kw) calls -> map fst kw = ["algo"; "max_evals"]%string).
Proof.
  cbv zeta. split; [|split].
  - intros H. apply run_a_trial_hyper_tune_calls.
    now rewrite (MAX_EVALS_unset H).
  - intros s n H Hn. apply run_a_trial_hyper_tune_calls.
    rewrite (MAX_EVALS_set s H). exact Hn.
  - intros sp kw. destruct (py_int (runtime C) (MAX_EVALS environ)) as [n|e] eqn:E.
    + rewrite (run_a_trial_hyper_tune_calls C environ w n E).
      intros [H|[]]. inversion H. reflexivity.
    + rewrite (run_a_trial_conversion_fails C environ w e E). cbn [snd].
      rewrite events_since_with_events. simpl. tauto.
Qed.

(** Whatever [int] raises on a string is a ValueError. *)
Lemma int_of_str_raises_ValueError (R : Runtime) (s : string) (e : exn) :
  int_of_str R s = Raise e -> exn_class e = "ValueError"%string.
Proof.
  unfold int_of_str. destruct (all_ascii s).
  - destruct (ascii_int (int_max_str_digits R) s);
      intros H; inversion H; reflexivity.
  - destruct (int_of_text R s); intros H; inversion H; reflexivity.
Qed.

(** C9. A value of HKS_MAX_EVALS stays a string until [run_a_trial] converts
    it.  When [int] does not take the string for an integer, the conversion
    raises its ValueError there, after the three log lines and before the
    optimizer is called; for an ASCII string that is no literal the error is
    the invalid-literal one.  When the variable is unset [MAX_EVALS] is the
    integer 5 and its conversion gives 5. *)
Theorem run_a_trial_bad_max_evals (w : World Store) :
  (forall (s : string) (e : exn),
      dict_get environ "HKS_MAX_EVALS" = Some s ->
      int_of_str (runtime C) s = Raise e ->
      MAX_EVALS environ = PStr s
      /\ exn_class e = "ValueError"%string
      /\ run_a_trial C environ w
         = (Raise e, with_events w (run_a_trial_preamble environ))
      /\ hyper_tune_calls (events_since w (snd (run_a_trial C environ w))) = [])
  /\ (forall s : string,
         dict_get environ "HKS_MAX_EVALS" = Some s ->
         all_ascii s = true ->
         ascii_int (int_max_str_digits (runtime C)) s = Invalid ->
         fst (run_a_trial C environ w) = Raise (invalid_literal s))
  /\ (dict_get environ "HKS_MAX_EVALS" = None ->
      MAX_EVALS environ = PInt 5
      /\ py_int (runtime C) (MAX_EVALS environ) = Ok 5%Z).
Proof.
  assert (Hraise :
    forall (s : string) (e : exn),
      dict_get environ "HKS_MAX_EVALS" = Some s ->
      int_of_str (runtime C) s = Raise e ->
      run_a_trial C environ w
      = (Raise e, with_events w (run_a_trial_preamble environ))).
  { intros s e H He. apply run_a_trial_conversion_fails.
    rewrite (MAX_EVALS_set s H). exact He. }
  split; [|split].
  - intros s e H He. rewrite (Hraise s e H He). cbn [snd].
    rewrite events_since_with_events.
    split; [exact (MAX_EVALS_set s H)|].
    split; [exact (int_of_str_raises_ValueError _ s e He)|].
    split; reflexivity.
  - intros s H Hascii Hinv. rewrite (Hraise s (invalid_literal s) H);
      [reflexivity|].
    unfold int_of_str. now rewrite Hascii, Hinv.
  - intros H. rewrite (MAX_EVALS_unset H). split; reflexivity.
Qed.

End Budget.

Lemma run_a_trial_budget_is_max_evals_witness :
  hyper_tune_calls
    (events_since (fresh_world [])
       (snd (run_a_trial (lab raising_evaluator) env_default (fresh_world []))))
  = [(space, [("algo", KAlgo tpe_suggest); ("max_evals", KInt 5)])]
  /\ hyper_tune_calls
       (events_since (fresh_world [])
          (snd (run_a_trial (lab raising_evaluator) env_cifar (fresh_world []))))
     = [(space, [("algo", KAlgo tpe_suggest); ("max_evals", KInt 3)])].
Proof.
  split.
  - apply (run_a_trial_budget_is_max_evals (lab raising_evaluator) env_default
             (fresh_world [])).
    reflexivity.
  - apply (proj1 (proj2 (run_a_trial_budget_is_max_evals (lab raising_evaluator)
                           env_cifar (fresh_world [])))
             "3"%string 3%Z); reflexivity.
Defined.

Lemma run_a_trial_bad_max_evals_witness :
  run_a_trial (lab raising_evaluator) env_bad_evals (fresh_world [])
  = (Raise (invalid_literal "five"),
     with_events (fresh_world []) (run_a_trial_preamble env_bad_evals))
  /\ fst (run_a_trial (lab raising_evaluator) env_separator_evals
            (fresh_world []))
     = Raise (invalid_literal (String "031"%char "7"))
  /\ py_int lab_runtime (MAX_EVALS env_default) = Ok 5%Z.
Proof.
  destruct (run_a_trial_bad_max_evals (lab raising_evaluator) env_bad_evals
              (fresh_world [])) as (Hraise & _ & _).
  destruct (run_a_trial_bad_max_evals (lab raising_evaluator) env_separator_evals
              (fresh_world [])) as (_ & Hliteral & _).
  destruct (run_a_trial_bad_max_evals (lab raising_evaluator) env_default
              (fresh_world [])) as (_ & _ & Hunset).
  split; [|split].
  - apply (Hraise "five"%string (invalid_literal "five")); reflexivity.
  - apply (Hliteral (String "031"%char "7")); reflexivity.
  - apply Hunset. reflexivity.
Defined.

(** ** Plotting *)

Section Plotting.

Context {Store Objective : Type}.
Variable C : Collaborators Store Objective.
Variable environ : Env.

Lemma truthy_path (folder : option string) (prefix : string) :
  truthy folder = true ->
  (str_of folder ++ "/" ++ prefix ++ ".png")%string = claimed_plot_path folder prefix.
Proof. destruct folder as [[|c rest]|]; simpl; intros H; congruence. Qed.

Lemma falsy_path (folder : option string) (prefix : string) :
  truthy folder = false ->
  (prefix ++ ".png")%string = claimed_plot_path folder prefix.
Proof. destruct folder as [[|c rest]|]; simpl; intros H; congruence. Qed.

#[local] Ltac run_plot :=
  repeat unfold plot, path_exists, makedirs, build_model, plot_model,
    clear_session, del, emit, raise_if, raise, ret, bind;
  cbn [fst snd w_trace w_dirs w_files w_session w_store negb].

#[local] Ltac trace_tail :=
  rewrite <- ?app_assoc; cbn [app]; reflexivity.

#[local] Ltac plot_raises e calls :=
  right; split; [now exists e|]; split; [calls|reflexivity].

#[local] Ltac plot_returns before :=
  left; split; [reflexivity|]; split; [|split; reflexivity];
  exists before; split; reflexivity.

(** Every way a call to [plot] can go: it returns after the calls
    [build_model], [plot_model], [K.clear_session], [del model], or one of
    [os.makedirs], [build_model], [plot_model] raises.  The store is not
    touched either way. *)
Lemma plot_outcome (hyperspace : Config) (prefix : string) (w : World Store) :
  let m := mk_model hyperspace in
  let path := claimed_plot_path (PLOT_FOLDER_PATH C environ) prefix in
  let r := fst (plot C environ hyperspace prefix w) in
  let w' := snd (plot C environ hyperspace prefix w) in
  w_store w' = w_store w
  /\ exists evs : list Event,
       w_trace w' = w_trace w ++ evs
       /\ hyper_tune_calls evs = []
       /\ ((r = Ok tt
            /\ (exists before : list Event,
                  evs = before
                        ++ [EBuildModel hyperspace; EPlotModel m path true;
                            EClearSession; EDel "model"]
                  /\ plot_model_calls before = [])
            /\ w_session w' = []
            /\ w_files w' = (path, m) :: w_files w)
           \/ ((exists e : exn, r = Raise e)
               /\ (plot_model_calls evs = []
                   \/ plot_model_calls evs = [(m, path, true)])
               /\ w_files w' = w_files w)).
Proof.
  cbv zeta. run_plot.
  destruct (truthy (PLOT_FOLDER_PATH C environ)) eqn:Ht.
  - rewrite (truthy_path _ prefix Ht). run_plot.
    destruct (existsb (String.eqb (str_of (PLOT_FOLDER_PATH C environ))) (w_dirs w));
      run_plot.
    + destruct (build_model_error C hyperspace) as [e|]; run_plot;
        [|destruct (plot_model_error C (mk_model hyperspace)
                     (claimed_plot_path (PLOT_FOLDER_PATH C environ) prefix))
            as [e|]; run_plot];
        (split; [reflexivity|]); eexists; (split; [trace_tail|]);
        (split; [reflexivity|]).
      * plot_raises e ltac:(now left).
      * plot_raises e ltac:(now right).
      * plot_returns (@nil Event).
    + destruct (makedirs_error C (str_of (PLOT_FOLDER_PATH C environ))) as [e|];
        run_plot;
        [|destruct (build_model_error C hyperspace) as [e|]; run_plot;
          [|destruct (plot_model_error C (mk_model hyperspace)
                       (claimed_plot_path (PLOT_FOLDER_PATH C environ) prefix))
              as [e|]; run_plot]];
        (split; [reflexivity|]); eexists; (split; [trace_tail|]);
        (split; [reflexivity|]).
      * plot_raises e ltac:(now left).
      * plot_raises e ltac:(now left).
      * plot_raises e ltac:(now right).
      * plot_returns [EMakedirs (str_of (PLOT_FOLDER_PATH C environ))].
  - rewrite (falsy_path _ prefix Ht). run_plot.
    destruct (build_model_error C hyperspace) as [e|]; run_plot;
      [|destruct (plot_model_error C (mk_model hyperspace)
                   (claimed_plot_path (PLOT_FOLDER_PATH C environ) prefix))
          as [e|]; run_plot];
      (split; [reflexivity|]); eexists; (split; [trace_tail|]);
        (split; [reflexivity|]).
    + plot_raises e ltac:(now left).
    + plot_raises e ltac:(now right).
    + plot_returns (@nil Event).
Qed.

#[local] Ltac since :=
  erewrite events_since_extended
    by (cbn [w_trace]; rewrite <- ?app_assoc; cbn [app]; reflexivity).

(** A call to [plot] in which no collaborator raises: it returns, after
    [os.makedirs] when the configured folder is missing and then
    [build_model], [plot_model], [K.clear_session], [del model]; the diagram
    is written and the session is empty. *)
Lemma plot_without_failure (hyperspace : Config) (prefix : string)
    (w : World Store) :
  let folder := PLOT_FOLDER_PATH C environ in
  let path := claimed_plot_path folder prefix in
  let missing :=
    truthy folder && negb (existsb (String.eqb (str_of folder)) (w_dirs w)) in
  (missing = true -> makedirs_error C (str_of folder) = None) ->
  build_model_error C hyperspace = None ->
  plot_model_error C (mk_model hyperspace) path = None ->
  plot C environ hyperspace prefix w
  = (Ok tt,
     mk_world
       (w_trace w
        ++ (if missing then [EMakedirs (str_of folder)] else [])
        ++ [EBuildModel hyperspace; EPlotModel (mk_model hyperspace) path true;
            EClearSession; EDel "model"])
       (if missing then str_of folder :: w_dirs w else w_dirs w)
       ((path, mk_model hyperspace) :: w_files w) [] (w_store w)).
Proof.
  cbv zeta. intros Hm Hb Hp. run_plot.
  destruct (truthy (PLOT_FOLDER_PATH C environ)) eqn:Ht.
  - rewrite (truthy_path _ prefix Ht). run_plot.
    destruct (existsb (String.eqb (str_of (PLOT_FOLDER_PATH C environ))) (w_dirs w));
      cbn [andb negb] in Hm |- *; run_plot.
    + rewrite Hb. run_plot. rewrite Hp. run_plot.
      do 2 f_equal. trace_tail.
    + rewrite (Hm eq_refl). run_plot. rewrite Hb. run_plot. rewrite Hp. run_plot.
      do 2 f_equal. trace_tail.
  - rewrite (falsy_path _ prefix Ht). cbn [andb]. run_plot.
    rewrite Hb. run_plot. rewrite Hp. run_plot.
    do 2 f_equal. trace_tail.
Qed.

(** [plot] returns only when no collaborator it called has raised. *)
Lemma plot_returns_without_failure (hyperspace : Config) (prefix : string)
    (w : World Store) :
  let folder := PLOT_FOLDER_PATH C environ in
  let path := claimed_plot_path folder prefix in
  let missing :=
    truthy folder && negb (existsb (String.eqb (str_of folder)) (w_dirs w)) in
  fst (plot C environ hyperspace prefix w) = Ok tt ->
  (missing = true -> makedirs_error C (str_of folder) = None)
  /\ build_model_error C hyperspace = None
  /\ plot_model_error C (mk_model hyperspace) path = None.
Proof.
  cbv zeta. run_plot.
  destruct (truthy (PLOT_FOLDER_PATH C environ)) eqn:Ht.
  - rewrite (truthy_path _ prefix Ht). run_plot.
    destruct (existsb (String.eqb (str_of (PLOT_FOLDER_PATH C environ))) (w_dirs w));
      cbn [andb negb]; run_plot.
    + destruct (build_model_error C hyperspace) as [e|]; run_plot;
        [|destruct (plot_model_error C (mk_model hyperspace)
                     (claimed_plot_path (PLOT_FOLDER_PATH C environ) prefix))
            as [e|]; run_plot];
        intros Hok; try discriminate Hok.
      repeat split. intros H. discriminate H.
    + destruct (makedirs_error C (str_of (PLOT_FOLDER_PATH C environ))) as [e|];
        run_plot;
        [|destruct (build_model_error C hyperspace) as [e|]; run_plot;
          [|destruct (plot_model_error C (mk_model hyperspace)
                       (claimed_plot_path (PLOT_FOLDER_PATH C environ) prefix))
              as [e|]; run_plot]];
        intros Hok; try discriminate Hok.
      repeat split.
  - rewrite (falsy_path _ prefix Ht). cbn [andb]. run_plot.
    destruct (build_model_error C hyperspace) as [e|]; run_plot;
      [|destruct (plot_model_error C (mk_model hyperspace)
                   (claimed_plot_path (PLOT_FOLDER_PATH C environ) prefix))
          as [e|]; run_plot];
      intros Hok; try discriminate Hok.
    repeat split. intros H. discriminate H.
Qed.

(** [plot] prints no hyperspace. *)
Lemma plot_prints_nothing (hyperspace : Config) (prefix : string)
    (w : World Store) :
  printed_json (events_since w (snd (plot C environ hyperspace prefix w))) = [].
Proof.
  run_plot.
  destruct (truthy (PLOT_FOLDER_PATH C environ)); run_plot.
  - destruct (existsb (String.eqb (str_of (PLOT_FOLDER_PATH C environ))) (w_dirs w));
      run_plot.
    + destruct (build_model_error C hyperspace) as [e|]; run_plot;
        [|destruct (plot_model_error C (mk_model hyperspace) _) as [e|]; run_plot];
        since; reflexivity.
    + destruct (makedirs_error C (str_of (PLOT_FOLDER_PATH C environ))) as [e|];
        run_plot;
        [|destruct (build_model_error C hyperspace) as [e|]; run_plot;
          [|destruct (plot_model_error C (mk_model hyperspace) _) as [e|];
            run_plot]];
        since; reflexivity.
  - destruct (build_model_error C hyperspace) as [e|]; run_plot;
      [|destruct (plot_model_error C (mk_model hyperspace) _) as [e|]; run_plot];
      since; reflexivity.
Qed.

Lemma extends_refl (w : World Store) : extends w w.
Proof. exists []. now rewrite app_nil_r. Qed.

Lemma extends_trans (w1 w2 w3 : World Store) :
  extends w1 w2 -> extends w2 w3 -> extends w1 w3.
Proof.
  intros [a Ha] [b Hb]. exists (a ++ b). now rewrite Hb, Ha, app_assoc.
Qed.

Lemma extends_with_events (w : World Store) (evs : list Event) :
  extends w (with_events w evs).
Proof. now exists evs. Qed.

Lemma plot_extends (hyperspace : Config) (prefix : string) (w : World Store) :
  extends w (snd (plot C environ hyperspace prefix w)).
Proof.
  destruct (plot_outcome hyperspace prefix w) as [_ [evs [H _]]].
  now exists evs.
Qed.

End Plotting.

Section PlottingClaims.

Context {Store Objective : Type}.
Variable C : Collaborators Store Objective.
Variable environ : Env.

(** What [run_a_trial] returns, the store it leaves and the calls it makes
    to the optimizer depend on the world through the store alone. *)
Lemma run_a_trial_reads_the_store (w1 w2 : World Store) :
  w_store w1 = w_store w2 ->
  fst (run_a_trial C environ w1) = fst (run_a_trial C environ w2)
  /\ w_store (snd (run_a_trial C environ w1))
     = w_store (snd (run_a_trial C environ w2))
  /\ hyper_tune_calls (events_since w1 (snd (run_a_trial C environ w1)))
     = hyper_tune_calls (events_since w2 (snd (run_a_trial C environ w2))).
Proof.
  intros Hs. destruct (py_int (runtime C) (MAX_EVALS environ)) as [n|e] eqn:E.
  - rewrite !(run_a_trial_hyper_tune_calls C environ _ n E).
    rewrite !(run_a_trial_calls_hyper_tune C environ _ n E). cbv zeta.
    rewrite Hs.
    destruct (hyper_tune C (optimize_cnn C) space (hyper_tune_kwargs n) (w_store w2))
      as [[best|e] s]; repeat split; reflexivity.
  - rewrite !(run_a_trial_conversion_fails C environ _ e E). cbn [fst snd].
    rewrite !events_since_with_events. repeat split. exact Hs.
Qed.

(** C7. A call to [plot] asks [plot_model] for one file only: the prefix
    with [.png], inside the plot folder when one is configured and in the
    working directory otherwise; when [plot] returns, that file holds the
    diagram of the model built from the hyperspace.  [plot] leaves the
    results store as it was, and a search run after it returns the same
    value, leaves the same store and calls the optimizer in the same way as
    a search run in its place. *)
Theorem plot_file_path (hyperspace : Config) (prefix : string) (w : World Store) :
  let path := claimed_plot_path (PLOT_FOLDER_PATH C environ) prefix in
  let w' := snd (plot C environ hyperspace prefix w) in
  (forall (c : ascii) (rest : string),
      PLOT_FOLDER_PATH C environ = Some (String c rest) ->
      path = (String c rest ++ "/" ++ prefix ++ ".png")%string)
  /\ (PLOT_FOLDER_PATH C environ = None
      \/ PLOT_FOLDER_PATH C environ = Some EmptyString ->
      path = (prefix ++ ".png")%string)
  /\ (forall (m : Model) (to_file : string) (show_shapes : bool),
         In (m, to_file, show_shapes) (plot_model_calls (events_since w w')) ->
         m = mk_model hyperspace /\ to_file = path /\ show_shapes = true)
  /\ (fst (plot C environ hyperspace prefix w) = Ok tt ->
      w_files w' = (path, mk_model hyperspace) :: w_files w)
  /\ w_store w' = w_store w
  /\ fst (run_a_trial C environ w') = fst (run_a_trial C environ w)
  /\ w_store (snd (run_a_trial C environ w'))
     = w_store (snd (run_a_trial C environ w))
  /\ hyper_tune_calls (events_since w' (snd (run_a_trial C environ w')))
     = hyper_tune_calls (events_since w (snd (run_a_trial C environ w))).
Proof.
  cbv zeta.
  destruct (plot_outcome C environ hyperspace prefix w)
    as [Hstore [evs [Htrace [_ Hcases]]]].
  split; [|split; [|split; [|split; [|split]]]].
  - intros c rest ->. reflexivity.
  - intros [-> | ->]; reflexivity.
  - intros m f b. rewrite (events_since_extended _ _ _ Htrace).
    destruct Hcases as [[_ [[before [-> Hb]] _]] | [_ [[Hc | Hc] _]]].
    + rewrite plot_model_calls_app, Hb. simpl.
      intros [H|[]]. inversion H. repeat split.
    + rewrite Hc. intros [].
    + rewrite Hc. intros [H|[]]. inversion H. repeat split.
  - intros Hok. destruct Hcases as [[_ [_ [_ Hf]]] | [[e He] _]].
    + exact Hf.
    + rewrite He in Hok. discriminate.
  - exact Hstore.
  - apply run_a_trial_reads_the_store. exact Hstore.
Qed.

(** C10. When [plot] returns, its last calls were, in this order,
    [build_model], [plot_model] for the diagram, [K.clear_session()] and
    [del model]; the backend session holds no model. *)
Theorem plot_clears_the_session (hyperspace : Config) (prefix : string)
    (w : World Store) :
  fst (plot C environ hyperspace prefix w) = Ok tt ->
  let w' := snd (plot C environ hyperspace prefix w) in
  w_session w' = []
  /\ ~ In (mk_model hyperspace) (w_session w')
  /\ exists before : list Event,
       events_since w w'
       = before
         ++ [EBuildModel hyperspace;
             EPlotModel (mk_model hyperspace)
               (claimed_plot_path (PLOT_FOLDER_PATH C environ) prefix) true;
             EClearSession;
             EDel "model"].
Proof.
  intros Hok. cbv zeta.
  destruct (plot_outcome C environ hyperspace prefix w)
    as [_ [evs [Htrace [_ [[_ [[before [-> _]] [Hs _]]] | [[e He] _]]]]]].
  - rewrite Hs. split; [reflexivity|]. split; [intros []|].
    exists before. apply events_since_extended. exact Htrace.
  - rewrite He in Hok. discriminate.
Qed.

Lemma plot_best_model_none (w : World Store) :
  load_best_hyperspace C (w_store w) = Ok None ->
  plot_best_model C environ w
  = (Ok tt,
     with_events w
       [ELoadBest; ELog INFO (PStr "No best model to plot. Continuing...") []]).
Proof.
  intros H.
  unfold plot_best_model, call_load_best_hyperspace, bind, log_info, log.
  rewrite emit_with_events. cbn [w_store with_events]. rewrite H.
  rewrite emit_with_events, with_events_app. reflexivity.
Qed.

Lemma plot_best_model_some (w : World Store) (best : Config) :
  load_best_hyperspace C (w_store w) = Ok (Some best) ->
  plot_best_model C environ w
  = plot C environ best "model_best"
      (with_events w
         [ELoadBest; ELog INFO (PStr "Best hyperspace yet:") [];
          EPrintJson best]).
Proof.
  intros H.
  unfold plot_best_model, call_load_best_hyperspace, bind, log_info, log,
    print_json.
  rewrite emit_with_events. cbn [w_store with_events]. rewrite H.
  rewrite !emit_with_events.
  change (mk_world (w_trace w ++ [ELoadBest]) (w_dirs w) (w_files w)
            (w_session w) (w_store w))
    with (with_events w [ELoadBest]).
  rewrite !with_events_app. reflexivity.
Qed.

(** C6. When the query for the best hyperspace returns none,
    [plot_best_model] logs that there is no best model and returns: it does
    not raise, asks for no diagram and writes no file.  When the query
    returns a hyperspace, [plot_best_model] first prints it with
    [print_json], once and whatever happens next, and then plots it under
    the prefix [model_best]:
    - it returns exactly when no collaborator it calls raises ([os.makedirs]
      for a configured folder that is missing, [build_model], [plot_model]);
    - then its calls are, in this order, the query, the log line, the print,
      [os.makedirs] when the folder is missing, [build_model] of the best
      hyperspace, [plot_model] of that model to the file of the prefix
      [model_best], [K.clear_session] and [del model]; the file holds the
      diagram of the best hyperspace and the session is empty;
    - when it raises, no file is written. *)
Theorem plot_best_model_cases (w : World Store) :
  let folder := PLOT_FOLDER_PATH C environ in
  let path := claimed_plot_path folder "model_best" in
  let missing :=
    truthy folder && negb (existsb (String.eqb (str_of folder)) (w_dirs w)) in
  let r := fst (plot_best_model C environ w) in
  let w' := snd (plot_best_model C environ w) in
  (load_best_hyperspace C (w_store w) = Ok None ->
   plot_best_model C environ w
   = (Ok tt,
      with_events w
        [ELoadBest; ELog INFO (PStr "No best model to plot. Continuing...") []])
   /\ plot_model_calls (events_since w w') = []
   /\ w_files w' = w_files w)
  /\ (forall best : Config,
         load_best_hyperspace C (w_store w) = Ok (Some best) ->
         let no_failure :=
           (missing = true -> makedirs_error C (str_of folder) = None)
           /\ build_model_error C best = None
           /\ plot_model_error C (mk_model best) path = None in
         (exists evs : list Event,
             events_since w w'
             = [ELoadBest; ELog INFO (PStr "Best hyperspace yet:") [];
                EPrintJson best] ++ evs)
         /\ printed_json (events_since w w') = [best]
         /\ (r = Ok tt <-> no_failure)
         /\ (no_failure ->
             events_since w w'
             = [ELoadBest; ELog INFO (PStr "Best hyperspace yet:") [];
                EPrintJson best]
               ++ (if missing then [EMakedirs (str_of folder)] else [])
               ++ [EBuildModel best; EPlotModel (mk_model best) path true;
                   EClearSession; EDel "model"]
             /\ plot_model_calls (events_since w w') = [(mk_model best, path, true)]
             /\ w_files w' = (path, mk_model best) :: w_files w
             /\ w_session w' = [])
         /\ (forall e : exn, r = Raise e -> w_files w' = w_files w)).
Proof.
  cbv zeta. split.
  - intros H. rewrite (plot_best_model_none w H). cbn [snd].
    rewrite events_since_with_events. repeat split.
  - intros best H. rewrite (plot_best_model_some w best H).
    set (w0 := with_events w
                 [ELoadBest; ELog INFO (PStr "Best hyperspace yet:") [];
                  EPrintJson best]).
    assert (Hsince : forall evs : list Event,
               w_trace (snd (plot C environ best "model_best" w0))
               = w_trace w0 ++ evs ->
               events_since w (snd (plot C environ best "model_best" w0))
               = [ELoadBest; ELog INFO (PStr "Best hyperspace yet:") [];
                  EPrintJson best] ++ evs).
    { intros evs Hevs. apply events_since_extended. rewrite Hevs.
      unfold w0. cbn [w_trace with_events]. now rewrite <- app_assoc. }
    destruct (plot_extends C environ best "model_best" w0) as [evs Hevs].
    assert (Hnone : printed_json evs = []).
    { rewrite <- (events_since_extended w0 _ evs Hevs).
      apply plot_prints_nothing. }
    split; [exists evs; exact (Hsince evs Hevs)|].
    split; [rewrite (Hsince evs Hevs), printed_json_app, Hnone; reflexivity|].
    pose proof (plot_without_failure C environ best "model_best" w0) as Hrun.
    cbv zeta in Hrun.
    change (w_dirs w0) with (w_dirs w) in Hrun.
    change (w_files w0) with (w_files w) in Hrun.
    change (w_store w0) with (w_store w) in Hrun.
    split; [split|split].
    + exact (plot_returns_without_failure C environ best "model_best" w0).
    + intros (Hm & Hb & Hp). now rewrite (Hrun Hm Hb Hp).
    + intros (Hm & Hb & Hp). rewrite (Hrun Hm Hb Hp).
      cbn [snd w_files w_session].
      assert (Hev : forall (evs' : list Event) d f s st,
                 events_since w (mk_world (w_trace w0 ++ evs') d f s st)
                 = [ELoadBest; ELog INFO (PStr "Best hyperspace yet:") [];
                    EPrintJson best] ++ evs').
      { intros evs' d f s st. apply events_since_extended. unfold w0.
        cbn [w_trace with_events]. now rewrite <- app_assoc. }
      rewrite Hev.
      split; [reflexivity|split; [|split; reflexivity]].
      rewrite !plot_model_calls_app.
      destruct (truthy (PLOT_FOLDER_PATH C environ)
                && negb (existsb (String.eqb (str_of (PLOT_FOLDER_PATH C environ)))
                           (w_dirs w))); reflexivity.
    + intros e He.
      destruct (plot_outcome C environ best "model_best" w0)
        as [_ [evs' [_ [_ [[Hok _] | [_ [_ Hf]]]]]]].
      * rewrite Hok in He. discriminate.
      * exact Hf.
Qed.

End PlottingClaims.

Lemma plot_file_path_witness :
  claimed_plot_path (PLOT_FOLDER_PATH (lab raising_evaluator) env_cifar) "model_best"
  = "/storage/models/cifar/model_best.png"%string
  /\ claimed_plot_path (PLOT_FOLDER_PATH (lab raising_evaluator) env_default)
       "model_best"
     = "model_best.png"%string
  /\ w_files
       (snd (plot (lab raising_evaluator) env_cifar earlier_best "model_best"
               (fresh_world [])))
     = [("/storage/models/cifar/model_best.png"%string, mk_model earlier_best)].
Proof.
  split; [|split].
  - apply (proj1 (plot_file_path (lab raising_evaluator) env_cifar earlier_best
                    "model_best" (fresh_world []))
             "/"%char "storage/models/cifar"%string).
    reflexivity.
  - apply (proj1 (proj2 (plot_file_path (lab raising_evaluator) env_default
                           earlier_best "model_best" (fresh_world [])))).
    left. reflexivity.
  - apply (proj1 (proj2 (proj2 (proj2
             (plot_file_path (lab raising_evaluator) env_cifar earlier_best
                "model_best" (fresh_world [])))))).
    reflexivity.
Defined.

Lemma plot_clears_the_session_witness :
  w_session
    (snd (plot (lab raising_evaluator) env_cifar earlier_best "model_best"
            (fresh_world [])))
  = [].
Proof.
  apply (plot_clears_the_session (lab raising_evaluator) env_cifar earlier_best
           "model_best" (fresh_world [])).
  reflexivity.
Defined.

Lemma plot_best_model_cases_witness :
  fst (plot_best_model (lab raising_evaluator) env_default (fresh_world []))
  = Ok tt
  /\ events_since (fresh_world earlier_store)
       (snd (plot_best_model (lab raising_evaluator) env_cifar
               (fresh_world earlier_store)))
     = [ELoadBest; ELog INFO (PStr "Best hyperspace yet:") [];
        EPrintJson earlier_best;
        EMakedirs "/storage/models/cifar";
        EBuildModel earlier_best;
        EPlotModel (mk_model earlier_best) "/storage/models/cifar/model_best.png"
          true;
        EClearSession; EDel "model"]
  /\ w_files
       (snd (plot_best_model (lab raising_evaluator) env_cifar
               (fresh_world earlier_store)))
     = [("/storage/models/cifar/model_best.png"%string, mk_model earlier_best)].
Proof.
  split; [|split].
  - rewrite (proj1 (proj1 (plot_best_model_cases (lab raising_evaluator)
                             env_default (fresh_world []))
                      eq_refl)).
    reflexivity.
  - apply (proj1 (proj1 (proj2 (proj2 (proj2
             (proj2 (plot_best_model_cases (lab raising_evaluator) env_cifar
                       (fresh_world earlier_store))
                earlier_best eq_refl))))
             (conj (fun _ => eq_refl) (conj eq_refl eq_refl)))).
  - apply (proj1 (proj2 (proj2 (proj1 (proj2 (proj2 (proj2
             (proj2 (plot_best_model_cases (lab raising_evaluator) env_cifar
                       (fresh_world earlier_store))
                earlier_best eq_refl))))
             (conj (fun _ => eq_refl) (conj eq_refl eq_refl)))))).
Defined.

(** ** The main program *)

Section MainProgram.

Context {Store Objective : Type}.
Variable C : Collaborators Store Objective.
Variable environ : Env.

Lemma for_each_log_lines (lines : Env) (w : World Store) :
  for_each lines (fun kv => log_debug (fst kv ++ ": " ++ snd kv)%string) w
  = (Ok tt,
     with_events w
       (map (fun kv => ELog DEBUG (PStr (fst kv ++ ": " ++ snd kv)%string) [])
          lines)).
Proof.
  revert w. induction lines as [|kv lines IH]; intros w; simpl.
  - unfold ret. now rewrite with_events_nil.
  - unfold bind, log_debug, log. rewrite emit_with_events, IH, with_events_app.
    reflexivity.
Qed.

Lemma bind_run {A B : Type} (m : M Store A) (k : A -> M Store B)
    (w : World Store) :
  bind m k w
  = match m w with
    | (Ok a, w') => k a w'
    | (Raise e, w') => (Raise e, w')
    end.
Proof. reflexivity. Qed.

Lemma log_with_events (l : level) (msg : PyVal) (args : list PyVal)
    (w : World Store) :
  log l msg args w = (Ok tt, with_events w [ELog l msg args]).
Proof. reflexivity. Qed.

Lemma log_environ_events (w : World Store) :
  log_environ environ w
  = (Ok tt, with_events w (ELog DEBUG (PStr banner) [] :: environ_lines environ)).
Proof.
  unfold log_environ. rewrite bind_run. unfold log_debug at 1.
  rewrite log_with_events. cbv beta iota.
  rewrite for_each_log_lines, with_events_app. reflexivity.
Qed.

Lemma gpu_warning_events (w : World Store) :
  (if negb (is_gpu_available C) then log_warning "GPUs are not available"
   else ret tt) w
  = (Ok tt,
     with_events w
       (if negb (is_gpu_available C)
        then [ELog WARN (PStr "GPUs are not available") []] else [])).
Proof.
  destruct (negb (is_gpu_available C)).
  - reflexivity.
  - unfold ret. now rewrite with_events_nil.
Qed.

(** [main] up to the plot of the demo model, which is called outside any
    handler. *)
Lemma main_until_demo_plot (w : World Store) :
  main C environ w
  = match plot_base_model C environ (with_events w (main_opening C environ)) with
    | (Ok _, w1) =>
        match optimization_step C environ
                (with_events w1 main_before_step) with
        | (Ok _, w2) =>
            plot_best_model C environ
              (with_events w2 [ELog INFO (PStr "PLOTTING BEST MODEL:") []])
        | (Raise e, w2) => (Raise e, w2)
        end
    | (Raise e, w1) => (Raise e, w1)
    end.
Proof.
  unfold main, set_verbosity, log_info.
  rewrite bind_run, emit_with_events. cbv beta iota.
  rewrite bind_run, log_environ_events, with_events_app. cbv beta iota.
  rewrite bind_run, gpu_warning_events, with_events_app. cbv beta iota.
  rewrite bind_run, log_with_events, with_events_app. cbv beta iota.
  rewrite bind_run.
  lazymatch goal with
  | |- (let (_, _) := plot_base_model C environ (with_events w ?l) in _) = _ =>
      replace l with (main_opening C environ)
        by (unfold main_opening; cbn [app]; rewrite <- ?app_assoc; reflexivity)
  end.
  destruct (plot_base_model C environ _) as [[[]|e] w1]; [|reflexivity].
  rewrite bind_run, log_with_events. cbv beta iota.
  rewrite bind_run, log_with_events, with_events_app. cbv beta iota.
  rewrite bind_run, log_with_events, with_events_app. cbv beta iota.
  rewrite bind_run. cbn [app]. fold main_before_step.
  destruct (optimization_step C environ _) as [[[]|e] w2]; [|reflexivity].
  rewrite bind_run, log_with_events. reflexivity.
Qed.

(** The handler: what [run_a_trial] raises is logged, message and then
    stack trace, and the statement ends normally. *)
Lemma optimization_step_handles (w w2 : World Store) (e : exn) :
  run_a_trial C environ w = (Raise e, w2) ->
  optimization_step C environ w
  = (Ok tt,
     with_events w2
       [ELog INFO (PStr (exn_str e)) []; ELog INFO (PStr (format_exc C e)) []]).
Proof.
  intros H. unfold optimization_step, try_except.
  unfold bind at 1. rewrite H.
  unfold bind, log_info, log. rewrite !emit_with_events, with_events_app.
  reflexivity.
Qed.

Lemma optimization_step_completes (w w2 : World Store) (best : PyVal) :
  run_a_trial C environ w = (Ok best, w2) ->
  optimization_step C environ w
  = (Ok tt,
     with_events w2
       [ELog INFO best [];
        ELog INFO (PStr (nl ++ "OPTIMIZATION STEP COMPLETE." ++ nl)%string) []]).
Proof.
  intros H. unfold optimization_step, try_except.
  unfold bind at 1. rewrite H.
  unfold bind, log_info, log. rewrite !emit_with_events, with_events_app.
  reflexivity.
Qed.

Lemma optimization_step_returns (w : World Store) :
  fst (optimization_step C environ w) = Ok tt.
Proof.
  destruct (run_a_trial C environ w) as [[best|e] w2] eqn:E.
  - now rewrite (optimization_step_completes w w2 best E).
  - now rewrite (optimization_step_handles w w2 e E).
Qed.

End MainProgram.

Lemma environ_lines_no_calls (lines : Env) :
  hyper_tune_calls (environ_lines lines) = [].
Proof.
  induction lines as [|kv rest IH]; [reflexivity|exact IH].
Qed.

Section MainClaims.

Context {Store Objective : Type}.
Variable C : Collaborators Store Objective.
Variable environ : Env.

Lemma run_a_trial_extends (w : World Store) :
  extends w (snd (run_a_trial C environ w)).
Proof.
  destruct (py_int (runtime C) (MAX_EVALS environ)) as [n|e] eqn:E.
  - rewrite (run_a_trial_calls_hyper_tune C environ w n E). cbv zeta.
    destruct (hyper_tune C (optimize_cnn C) space (hyper_tune_kwargs n) (w_store w))
      as [[best|e] s]; cbn [snd]; eexists; cbn [w_trace with_events];
      rewrite <- ?app_assoc; reflexivity.
  - rewrite (run_a_trial_conversion_fails C environ w e E).
    apply extends_with_events.
Qed.

Lemma optimization_step_extends (w : World Store) :
  extends w (snd (optimization_step C environ w)).
Proof.
  pose proof (run_a_trial_extends w) as Hr.
  destruct (run_a_trial C environ w) as [[best|e] w2] eqn:E; cbn [snd] in Hr.
  - rewrite (optimization_step_completes C environ w w2 best E).
    eapply extends_trans; [exact Hr|apply extends_with_events].
  - rewrite (optimization_step_handles C environ w w2 e E).
    eapply extends_trans; [exact Hr|apply extends_with_events].
Qed.

Lemma plot_best_model_extends (w : World Store) :
  extends w (snd (plot_best_model C environ w)).
Proof.
  destruct (load_best_hyperspace C (w_store w)) as [[best|]|e] eqn:E.
  - rewrite (plot_best_model_some C environ w best E).
    eapply extends_trans; [apply extends_with_events|apply plot_extends].
  - rewrite (plot_best_model_none C environ w E).
    apply extends_with_events.
  - unfold plot_best_model, call_load_best_hyperspace.
    rewrite !bind_run, emit_with_events. cbv beta iota.
    cbn [w_store with_events]. rewrite E. apply extends_with_events.
Qed.




End MainClaims.



(** ** The search loop *)

Section SearchLoop.

Variable suggest : Suggest.
Variable evaluator : Evaluator.
Variable sp : Space.

Lemma search_loop_appends (n : nat) (store : ResultStore) :
  search_loop suggest evaluator sp n store
  = store ++ trials_added suggest evaluator sp n store.
Proof.
  revert store. induction n as [|k IH]; intros store; simpl.
  - now rewrite app_nil_r.
  - unfold trial_runner_run. rewrite IH, <- app_assoc. reflexivity.
Qed.

Lemma trials_added_length (n : nat) (store : ResultStore) :
  List.length (trials_added suggest evaluator sp n store) = n.
Proof.
  revert store. induction n as [|k IH]; intros store; simpl; [reflexivity|].
  now rewrite IH.
Qed.

(** The [i]-th trial of a run is the evaluation of the candidate the
    optimizer gives for the history up to it. *)
Lemma trials_added_nth (n i : nat) (store : ResultStore) (tr : TrialResult) :
  nth_error (trials_added suggest evaluator sp n store) i = Some tr ->
  tr = trial_result evaluator
         (suggest sp
            (store ++ firstn i (trials_added suggest evaluator sp n store))).
Proof.
  revert i store. induction n as [|k IH]; intros i store; simpl.
  - destruct i; discriminate.
  - destruct i as [|i]; simpl.
    + intros H. inversion H. now rewrite app_nil_r.
    + intros H. apply IH in H. rewrite H at 1.
      rewrite <- app_assoc. reflexivity.
Qed.

Lemma trial_result_config (c : Config) :
  tr_config (trial_result evaluator c) = c.
Proof.
  unfold trial_result. destruct (evaluator c) as [[loss status]|e]; reflexivity.
Qed.

Lemma trial_result_raise (c : Config) (e : exn) :
  evaluator c = Raise e ->
  trial_result evaluator c = mk_trial c None status_failed (Some (exn_str e)).
Proof. unfold trial_result. now intros ->. Qed.

Lemma trials_added_are_results (n : nat) (store : ResultStore) (tr : TrialResult) :
  In tr (trials_added suggest evaluator sp n store) ->
  tr = trial_result evaluator (tr_config tr).
Proof.
  intros Hin. apply In_nth_error in Hin. destruct Hin as [i Hi].
  apply trials_added_nth in Hi. rewrite Hi at 2.
  rewrite trial_result_config. exact Hi.
Qed.

Lemma best_from_failed (current : option TrialResult) (store : ResultStore) :
  forallb is_failed_with_text store = true ->
  best_from current store = current.
Proof.
  revert current. induction store as [|tr rest IH]; intros current; simpl.
  - reflexivity.
  - intros H. apply andb_prop in H. destruct H as [Htr Hrest].
    unfold is_failed_with_text in Htr. unfold is_status_ok.
    destruct (tr_status tr); [discriminate|]. now apply IH.
Qed.

Lemma best_from_app (current : option TrialResult) (a b : ResultStore) :
  best_from current (a ++ b) = best_from (best_from current a) b.
Proof.
  revert current. induction a as [|tr a IH]; intros current; simpl.
  - reflexivity.
  - apply IH.
Qed.

End SearchLoop.

Section Containment.

Variable C : Collaborators ResultStore Evaluator.
Variable environ : Env.
Variable suggest : Suggest.
Variable evaluator : Evaluator.

Lemma run_a_trial_with_search_loop (n : Z) (w : World ResultStore) :
  py_int (runtime C) (MAX_EVALS environ) = Ok n ->
  let store' :=
    w_store w ++ trials_added suggest evaluator space (Z.to_nat n) (w_store w) in
  run_a_trial (with_search_loop suggest evaluator C) environ w
  = (Ok (best_value store'),
     mk_world
       (w_trace w
        ++ (run_a_trial_preamble environ ++ [EHyperTune space (hyper_tune_kwargs n)])
        ++ [ELog INFO (PStr "Best: %s") [best_value store']])
       (w_dirs w) (w_files w) (w_session w) store').
Proof.
  intros H. cbv zeta.
  rewrite (run_a_trial_calls_hyper_tune (with_search_loop suggest evaluator C)
             environ w n H).
  cbv zeta. cbn [hyper_tune optimize_cnn with_search_loop].
  unfold search_loop_optimize.
  change (dict_get (hyper_tune_kwargs n) "max_evals") with (Some (KInt n)).
  cbv beta iota. rewrite search_loop_appends.
  cbn [w_trace with_events]. rewrite <- app_assoc. reflexivity.
Qed.

(** C1.  With the search loop and trial runner of the specification behind
    [hyper_tune], a run of [run_a_trial] with [max_evals = n] returns without
    an exception whatever the evaluator does: it adds exactly [n] trials to
    the store, each the evaluation of the candidate the optimizer gives for
    the history so far; a trial whose evaluation raised is recorded as
    failed with the text of its exception, and the loop went on to the next
    candidate.  The handler of the main program is not reached: the
    optimisation step logs that it is complete.  When every evaluation
    raises, all the [n] trials are failed ones and, with no earlier ok-status
    trial in the store, the best record returned is none. *)
Theorem search_contains_evaluator_failures (n : Z) (w : World ResultStore) :
  py_int (runtime C) (MAX_EVALS environ) = Ok n ->
  let C' := with_search_loop suggest evaluator C in
  let new := trials_added suggest evaluator space (Z.to_nat n) (w_store w) in
  is_ok (fst (run_a_trial C' environ w)) = true
  /\ w_store (snd (run_a_trial C' environ w)) = w_store w ++ new
  /\ List.length new = Z.to_nat n
  /\ (forall (i : nat) (tr : TrialResult),
         nth_error new i = Some tr ->
         tr = trial_result evaluator (suggest space (w_store w ++ firstn i new)))
  /\ (forall (tr : TrialResult) (e : exn),
         In tr new ->
         evaluator (tr_config tr) = Raise e ->
         tr_status tr = status_failed /\ tr_diagnostic tr = Some (exn_str e))
  /\ (fst (optimization_step C' environ w) = Ok tt
      /\ In (ELog INFO (PStr (nl ++ "OPTIMIZATION STEP COMPLETE." ++ nl)%string) [])
           (events_since w (snd (optimization_step C' environ w))))
  /\ ((forall c : Config, is_ok (evaluator c) = false) ->
      forallb is_failed_with_text new = true
      /\ (store_best (w_store w) = None ->
          fst (run_a_trial C' environ w) = Ok PNone)).
Proof.
  intros H. cbv zeta.
  pose proof (run_a_trial_with_search_loop n w H) as Hrun. cbv zeta in Hrun.
  assert (Hfailed :
    (forall c : Config, is_ok (evaluator c) = false) ->
    forallb is_failed_with_text
      (trials_added suggest evaluator space (Z.to_nat n) (w_store w)) = true).
  { intros Hall. apply forallb_forall. intros tr Hin.
    rewrite (trials_added_are_results suggest evaluator space _ _ tr Hin).
    specialize (Hall (tr_config tr)).
    destruct (evaluator (tr_config tr)) as [[loss status]|e] eqn:E;
      [discriminate|].
    rewrite (trial_result_raise evaluator _ e E). reflexivity. }
  rewrite Hrun. cbn [fst snd w_store].
  split; [reflexivity|]. split; [reflexivity|].
  split; [apply trials_added_length|].
  split; [intros i tr; apply trials_added_nth|].
  split.
  { intros tr e Hin He.
    rewrite (trials_added_are_results suggest evaluator space _ _ tr Hin).
    rewrite (trial_result_raise evaluator _ e He). split; reflexivity. }
  split.
  { rewrite (optimization_step_completes _ environ w _ _ Hrun). cbn [fst snd].
    split; [reflexivity|].
    erewrite events_since_extended
      by (cbn [w_trace with_events]; rewrite <- ?app_assoc; reflexivity).
    apply in_or_app. right. apply in_or_app. right. simpl. right. right. now left. }
  intros Hall. split; [exact (Hfailed Hall)|].
  intros Hnone. unfold best_value, store_best.
  rewrite best_from_app. fold (store_best (w_store w)). rewrite Hnone.
  rewrite (best_from_failed None _ (Hfailed Hall)). reflexivity.
Qed.

End Containment.

Lemma search_contains_evaluator_failures_witness :
  fst (run_a_trial (lab raising_evaluator) env_default (fresh_world [])) = Ok PNone
  /\ List.length
       (w_store (snd (run_a_trial (lab raising_evaluator) env_default
                        (fresh_world []))))
     = 5%nat
  /\ forallb is_failed_with_text
       (w_store (snd (run_a_trial (lab raising_evaluator) env_default
                        (fresh_world []))))
     = true
  /\ fst (optimization_step (lab raising_evaluator) env_default (fresh_world []))
     = Ok tt.
Proof.
  pose proof (search_contains_evaluator_failures (lab raising_evaluator)
                env_default lab_suggest raising_evaluator 5%Z (fresh_world [])
                eq_refl) as H.
  cbv zeta in H.
  destruct H as (_ & Hstore & Hlen & _ & _ & [Hstep _] & Hall).
  destruct (Hall (fun _ => eq_refl)) as [Hfailed Hbest].
  split; [exact (Hbest eq_refl)|].
  split; [|split; [|exact Hstep]].
  - change (lab raising_evaluator)
      with (with_search_loop lab_suggest raising_evaluator (lab raising_evaluator)).
    rewrite Hstore. exact Hlen.
  - change (lab raising_evaluator)
      with (with_search_loop lab_suggest raising_evaluator (lab raising_evaluator)).
    rewrite Hstore. exact Hfailed.
Defined.

(** ** The search space *)

(** C4. The space declares every kind of distribution: a uniform, a
    log-uniform and a quantized parameter, a choice among a fixed ordered
    list of values, and three conditional choices, [first_conv], [residual]
    and [one_more_fc], each between None and a nested distribution. *)
Theorem space_declares_every_kind :
  declares is_uniform space = true
  /\ declares is_loguniform space = true
  /\ declares is_quniform space = true
  /\ declares is_categorical space = true
  /\ declares is_conditional space = true
  /\ dict_get space "coarse_labels_weight"
     = Some (hp_uniform "coarse_labels_weight" 0.1 0.7)
  /\ dict_get space "lr_rate_mult"
     = Some (hp_loguniform "lr_rate_mult" (-0.5) 0.5)
  /\ dict_get space "batch_size" = Some (hp_quniform "batch_size" 100 450 5)
  /\ dict_get space "optimizer"
     = Some (hp_choice "optimizer"
               [Lit (PStr "Adam"); Lit (PStr "Nadam"); Lit (PStr "RMSprop")])
  /\ dict_get space "first_conv"
     = Some (hp_choice "first_conv"
               [Lit PNone;
                hp_choice "first_conv_size" [Lit (PInt 3); Lit (PInt 4)]])
  /\ dict_get space "residual"
     = Some (hp_choice "residual" [Lit PNone; residual_units])
  /\ dict_get space "one_more_fc"
     = Some (hp_choice "one_more_fc"
               [Lit PNone; hp_loguniform "fc_units_2_mult" (-0.6) 0.6])
  /\ forallb
       (fun name =>
          match dict_get space name with
          | Some e => is_conditional e
          | None => false
          end)
       ["first_conv"; "residual"; "one_more_fc"]%string
     = true.
Proof. repeat split. Qed.

(** ** Sampling *)

#[local] Ltac q2r :=
  repeat rewrite ?Q2R_minus, ?Q2R_plus; unfold Q2R; cbn [Qnum Qden].

(** A value rounded to a nearest multiple of the step stays between the least
    and the greatest step that the bounds allow. *)
Lemma nearest_multiple_inside (low high q u r : R) (a b : Z) :
  (0 < q)%R ->
  ((IZR a - 1 / 2) * q < low <= IZR a * q)%R ->
  (IZR b * q <= high < (IZR b + 1 / 2) * q)%R ->
  (low <= u <= high)%R ->
  nearest_multiple q u r ->
  exists k : Z, r = (IZR k * q)%R /\ (a <= k <= b)%Z /\ (low <= r <= high)%R.
Proof.
  intros Hq [Ha1 Ha2] [Hb1 Hb2] [Hu1 Hu2] [k [Hr Hk]].
  exists k. split; [exact Hr|].
  set (y := (u / q)%R) in *.
  assert (Hy : u = (y * q)%R) by (unfold y; field; lra).
  assert (Hk' : (- (1 / 2) <= y - IZR k <= 1 / 2)%R).
  { unfold Rabs in Hk. destruct (Rcase_abs (y - IZR k)); lra. }
  destruct Hk' as [Hk1 Hk2].
  assert (Hlo : (IZR (a - 1) < IZR k)%R).
  { rewrite minus_IZR. assert ((IZR a - 1 / 2) < y)%R by nra. lra. }
  assert (Hhi : (IZR k < IZR (b + 1))%R).
  { rewrite plus_IZR. assert (y < (IZR b + 1 / 2))%R by nra. lra. }
  apply lt_IZR in Hlo. apply lt_IZR in Hhi.
  assert (Hak : (a <= k)%Z) by lia. assert (Hkb : (k <= b)%Z) by lia.
  split; [lia|].
  apply IZR_le in Hak. apply IZR_le in Hkb. subst r. nra.
Qed.

(** Whatever is drawn from a declaration that rounds inside its bounds lies
    within the declaration, a log-uniform value by its logarithm. *)
Lemma draws_within (e : expr) (v : sval) :
  draws e v -> rounds_inside e -> within bounds_the_logarithm e v.
Proof.
  induction 1 as [pv|label low high x Hx|label low high u Hu
                 |label low high q u r Hu Hr|label options o v Hin Hd IH];
    intros Hri.
  - constructor.
  - now constructor.
  - constructor. split; [apply exp_pos|]. now rewrite ln_exp.
  - inversion Hri as [| | |l0 lo0 hi0 q0 a b Hq Ha Hb|]; subst.
    destruct (nearest_multiple_inside _ _ _ _ _ a b Hq Ha Hb Hu Hr)
      as [k [Hk [_ Hin]]].
    constructor; [now exists k|exact Hin].
  - inversion Hri as [| | | |l0 opts Hall]; subst.
    apply within_choice with (o := o); [exact Hin|]. apply IH. now apply Hall.
Qed.

#[local] Ltac steps a b :=
  apply (rounds_inside_quniform _ _ _ _ a b); q2r; lra.

Lemma residual_units_rounds_inside : rounds_inside residual_units.
Proof. unfold residual_units. steps 1%Z 4%Z. Qed.

Lemma space_rounds_inside (name : string) (e : expr) :
  In (name, e) space -> rounds_inside e.
Proof.
  unfold space. cbn [In].
  intros H.
  repeat match type of H with
         | _ \/ _ => destruct H as [H|H]
         end;
    try contradiction; inversion H; subst; clear H;
    try (constructor; fail).
  - steps 20%Z 90%Z.
  - constructor. intros o Ho. cbn [In] in Ho.
    repeat (destruct Ho as [Ho|Ho]; [subst o; constructor|]). contradiction.
  - constructor. intros o Ho. cbn [In] in Ho.
    repeat (destruct Ho as [Ho|Ho]; [subst o; constructor|]). contradiction.
  - constructor. intros o Ho. cbn [In] in Ho.
    destruct Ho as [Ho|[Ho|[]]]; subst o; [constructor|].
    constructor. intros o Ho. cbn [In] in Ho.
    repeat (destruct Ho as [Ho|Ho]; [subst o; constructor|]). contradiction.
  - constructor. intros o Ho. cbn [In] in Ho.
    destruct Ho as [Ho|[Ho|[]]]; subst o; [constructor|].
    apply residual_units_rounds_inside.
  - constructor. intros o Ho. cbn [In] in Ho.
    repeat (destruct Ho as [Ho|Ho]; [subst o; constructor|]). contradiction.
  - steps 0%Z 2%Z.
  - constructor. intros o Ho. cbn [In] in Ho.
    repeat (destruct Ho as [Ho|Ho]; [subst o; constructor|]). contradiction.
  - steps 2%Z 4%Z.
  - steps 2%Z 4%Z.
  - constructor. intros o Ho. cbn [In] in Ho.
    repeat (destruct Ho as [Ho|Ho]; [subst o; constructor|]). contradiction.
  - constructor. intros o Ho. cbn [In] in Ho.
    repeat (destruct Ho as [Ho|Ho]; [subst o; constructor|]). contradiction.
Qed.

(** C5, as stated, fails for the log-uniform parameters: their declared
    numbers bound the exponent, not the value.  [lr_rate_mult] is declared
    with -0.5 and 0.5; the exponent 0 gives the value [exp 0 = 1], which is
    not between -0.5 and 0.5. *)
Lemma loguniform_value_outside_declared_numbers :
  In ("lr_rate_mult"%string, hp_loguniform "lr_rate_mult" (-0.5) 0.5) space
  /\ draws (hp_loguniform "lr_rate_mult" (-0.5) 0.5) (SNum (exp 0))
  /\ ~ within bounds_the_value (hp_loguniform "lr_rate_mult" (-0.5) 0.5)
         (SNum (exp 0)).
Proof.
  split; [now left|]. split.
  - constructor. q2r. lra.
  - intros H. inversion H as [| |label low high x Hb| |]; subst.
    unfold bounds_the_value in Hb. rewrite exp_0 in Hb.
    revert Hb. q2r. lra.
Qed.

(** C5, as the code has it.  Whatever is sampled for a parameter of the
    space lies within its declaration: a uniform value between the bounds; a
    log-uniform value with its logarithm between the bounds; a quantized
    value a multiple of the step between the bounds; a choice one of its
    options, itself within its declaration when it is a distribution.  In
    particular [residual_units] yields 1, 2, 3 or 4. *)
Theorem samples_within_declarations :
  (forall (name : string) (e : expr) (v : sval),
      In (name, e) space -> draws e v -> within bounds_the_logarithm e v)
  /\ (forall v : sval,
         draws residual_units v ->
         v = SNum 1 \/ v = SNum 2 \/ v = SNum 3 \/ v = SNum 4).
Proof.
  split.
  - intros name e v Hin Hd. apply draws_within; [exact Hd|].
    exact (space_rounds_inside name e Hin).
  - intros v Hd. unfold residual_units in Hd.
    inversion Hd as [| | |label low high q u r Hu Hr|]; subst.
    assert (Hq : Q2R 1 = 1%R) by (q2r; lra).
    rewrite Hq in Hr.
    destruct (nearest_multiple_inside (Q2R (1 - 0.499)) (Q2R (4 + 0.499)) 1 u r
                1%Z 4%Z) as [k [Hk [Hrange _]]];
      try (q2r; lra); [exact Hu|exact Hr|].
    subst r. rewrite Rmult_1_r.
    assert (Hcases : (k = 1 \/ k = 2 \/ k = 3 \/ k = 4)%Z) by lia.
    destruct Hcases as [-> | [-> | [-> | ->]]]; auto.
Qed.

Lemma samples_within_declarations_witness :
  within bounds_the_logarithm (hp_loguniform "lr_rate_mult" (-0.5) 0.5)
    (SNum (exp 0))
  /\ (SNum (IZR 3 * Q2R 1) = SNum 1 \/ SNum (IZR 3 * Q2R 1) = SNum 2
      \/ SNum (IZR 3 * Q2R 1) = SNum 3 \/ SNum (IZR 3 * Q2R 1) = SNum 4).
Proof.
  split.
  - apply (proj1 samples_within_declarations "lr_rate_mult"%string).
    + simpl. now left.
    + constructor. q2r. lra.
  - apply (proj2 samples_within_declarations).
    unfold residual_units.
    apply (draws_quniform _ _ _ _ (27 / 10)%R).
    + q2r. lra.
    + exists 3%Z. split; [reflexivity|].
      q2r. unfold Rabs. destruct (Rcase_abs _); lra.
Defined.

(** ** Two runs that differ in the environment tag *)

Lemma audible_app (a b : list Event) : audible (a ++ b) = audible a ++ audible b.
Proof. apply filter_app. Qed.

Lemma hyper_tune_calls_audible (evs : list Event) :
  hyper_tune_calls (audible evs) = hyper_tune_calls evs.
Proof.
  induction evs as [|ev evs IH]; [reflexivity|].
  destruct ev as [l|l msg args|p|h|m f b| |n|sp kw| |c]; simpl; rewrite ?IH;
    try reflexivity.
  destruct l; simpl; rewrite ?IH; reflexivity.
Qed.

Lemma audible_environ_lines (lines : Env) : audible (environ_lines lines) = [].
Proof. induction lines as [|kv rest IH]; [reflexivity|exact IH]. Qed.

Section Alike.

Context {Store Objective : Type}.
Variable C : Collaborators Store Objective.

#[local] Abbreviation Stmt := (M Store).

Lemma same_but_debug_refl (w : World Store) : same_but_debug w w.
Proof. repeat split. Qed.

Lemma alike_ret {A : Type} (a : A) : alike (ret a : Stmt A) (ret a).
Proof. intros w1 w2 H. split; [reflexivity|exact H]. Qed.

Lemma alike_raise {A : Type} (e : exn) : alike (raise e : Stmt A) (raise e).
Proof. intros w1 w2 H. split; [reflexivity|exact H]. Qed.

Lemma alike_lift_result {A : Type} (r : result A) :
  alike (lift_result r : Stmt A) (lift_result r).
Proof. intros w1 w2 H. split; [reflexivity|exact H]. Qed.

Lemma alike_bind {A B : Type} (m1 m2 : Stmt A) (k1 k2 : A -> Stmt B) :
  alike m1 m2 -> (forall a : A, alike (k1 a) (k2 a)) ->
  alike (bind m1 k1) (bind m2 k2).
Proof.
  intros Hm Hk w1 w2 H. unfold bind.
  destruct (Hm w1 w2 H) as [Hr Hw].
  destruct (m1 w1) as [[a1|e1] w1'], (m2 w2) as [[a2|e2] w2'];
    cbn [fst snd] in *; try discriminate.
  - inversion Hr; subst. now apply Hk.
  - inversion Hr; subst. split; [reflexivity|exact Hw].
Qed.

Lemma alike_try_except {A : Type} (b1 b2 : Stmt A) (h1 h2 : exn -> Stmt A) :
  alike b1 b2 -> (forall e : exn, alike (h1 e) (h2 e)) ->
  alike (try_except b1 h1) (try_except b2 h2).
Proof.
  intros Hb Hh w1 w2 H. unfold try_except.
  destruct (Hb w1 w2 H) as [Hr Hw].
  destruct (b1 w1) as [[a1|e1] w1'], (b2 w2) as [[a2|e2] w2'];
    cbn [fst snd] in *; try discriminate.
  - split; [exact Hr|exact Hw].
  - inversion Hr; subst. now apply Hh.
Qed.

Lemma alike_emit (ev : Event) : alike (emit ev : Stmt unit) (emit ev).
Proof.
  intros w1 w2 (Ht & Hd & Hf & Hs & Hst). unfold emit. cbn [fst snd].
  split; [reflexivity|].
  repeat split; cbn [w_trace w_dirs w_files w_session w_store]; try assumption.
  now rewrite !audible_app, Ht.
Qed.

Lemma alike_raise_if (err : option exn) :
  alike (raise_if err : Stmt unit) (raise_if err).
Proof. destruct err; [apply alike_raise|apply alike_ret]. Qed.

#[local] Ltac worlds w1 w2 :=
  intros w1 w2 (Ht & Hd & Hf & Hs & Hst); cbn [fst snd];
  repeat split; cbn [w_trace w_dirs w_files w_session w_store]; congruence.

Lemma path_exists_alike (path : string) :
  alike (path_exists path : Stmt bool) (path_exists path).
Proof. unfold path_exists. worlds w1 w2. Qed.

Lemma makedirs_alike (path : string) : alike (makedirs C path) (makedirs C path).
Proof.
  unfold makedirs.
  apply alike_bind; [apply alike_emit|intros _].
  apply alike_bind; [apply alike_raise_if|intros _].
  worlds w1 w2.
Qed.

Lemma build_model_alike (hyperspace : Config) :
  alike (build_model C hyperspace) (build_model C hyperspace).
Proof.
  unfold build_model.
  apply alike_bind; [apply alike_emit|intros _].
  apply alike_bind; [apply alike_raise_if|intros _].
  worlds w1 w2.
Qed.

Lemma plot_model_alike (m : Model) (to_file : string) (show_shapes : bool) :
  alike (plot_model C m to_file show_shapes) (plot_model C m to_file show_shapes).
Proof.
  unfold plot_model.
  apply alike_bind; [apply alike_emit|intros _].
  apply alike_bind; [apply alike_raise_if|intros _].
  worlds w1 w2.
Qed.

Lemma clear_session_alike : alike (clear_session : Stmt unit) clear_session.
Proof.
  unfold clear_session.
  apply alike_bind; [apply alike_emit|intros _].
  worlds w1 w2.
Qed.

Lemma call_load_best_hyperspace_alike :
  alike (call_load_best_hyperspace C) (call_load_best_hyperspace C).
Proof.
  unfold call_load_best_hyperspace.
  apply alike_bind; [apply alike_emit|intros _].
  worlds w1 w2.
Qed.

Lemma call_hyper_tune_alike (objective : Objective) (sp : Space) (kw : kwargs) :
  alike (call_hyper_tune C objective sp kw) (call_hyper_tune C objective sp kw).
Proof.
  unfold call_hyper_tune.
  apply alike_bind; [apply alike_emit|intros _].
  intros w1 w2 (Ht & Hd & Hf & Hs & Hst). rewrite Hst.
  destruct (hyper_tune C objective sp kw (w_store w2)) as [r s].
  cbn [fst snd]. repeat split; assumption.
Qed.

Variable environ : Env.

Lemma plot_alike (hyperspace : Config) (prefix : string) :
  alike (plot C environ hyperspace prefix) (plot C environ hyperspace prefix).
Proof.
  unfold plot, del.
  apply alike_bind.
  - destruct (truthy (PLOT_FOLDER_PATH C environ)); [|apply alike_ret].
    apply alike_bind; [apply path_exists_alike|intros there].
    apply alike_bind; [|intros _; apply alike_ret].
    destruct (negb there); [apply makedirs_alike|apply alike_ret].
  - intros filename.
    apply alike_bind; [apply build_model_alike|intros model].
    apply alike_bind; [apply plot_model_alike|intros _].
    apply alike_bind; [apply clear_session_alike|intros _].
    apply alike_emit.
Qed.

Lemma plot_best_model_alike :
  alike (plot_best_model C environ) (plot_best_model C environ).
Proof.
  unfold plot_best_model, log_info, log, print_json.
  apply alike_bind; [apply call_load_best_hyperspace_alike|intros [best|]].
  - apply alike_bind; [apply alike_emit|intros _].
    apply alike_bind; [apply alike_emit|intros _].
    apply plot_alike.
  - apply alike_emit.
Qed.

Lemma run_a_trial_alike : alike (run_a_trial C environ) (run_a_trial C environ).
Proof.
  unfold run_a_trial, log_info, log.
  apply alike_bind; [apply alike_emit|intros _].
  apply alike_bind; [apply alike_emit|intros _].
  apply alike_bind; [apply alike_emit|intros _].
  apply alike_bind; [apply alike_lift_result|intros max_evals].
  apply alike_bind; [apply call_hyper_tune_alike|intros best].
  apply alike_bind; [apply alike_emit|intros _].
  apply alike_ret.
Qed.

Lemma optimization_step_alike :
  alike (optimization_step C environ) (optimization_step C environ).
Proof.
  unfold optimization_step, log_info, log.
  apply alike_try_except.
  - apply alike_bind; [apply run_a_trial_alike|intros best].
    apply alike_bind; [apply alike_emit|intros _].
    apply alike_emit.
  - intros e. apply alike_bind; [apply alike_emit|intros _]. apply alike_emit.
Qed.

End Alike.

Section EnvironmentTag.

Context {Store Objective : Type}.
Variable C : Collaborators Store Objective.

Lemma main_after_opening (environ : Env) (w : World Store) :
  main C environ w
  = main_from_demo_plot C environ (with_events w (main_opening C environ)).
Proof.
  unfold main, set_verbosity, log_info.
  rewrite bind_run, emit_with_events. cbv beta iota.
  rewrite bind_run, log_environ_events, with_events_app. cbv beta iota.
  rewrite bind_run, gpu_warning_events, with_events_app. cbv beta iota.
  rewrite bind_run, log_with_events, with_events_app. cbv beta iota.
  unfold main_opening. cbn [app]. rewrite <- ?app_assoc. reflexivity.
Qed.

Lemma main_from_demo_plot_alike (environ : Env) :
  alike (main_from_demo_plot C environ) (main_from_demo_plot C environ).
Proof.
  unfold main_from_demo_plot, plot_base_model, log_info, log.
  apply alike_bind; [apply plot_alike|intros _].
  apply alike_bind; [apply alike_emit|intros _].
  apply alike_bind; [apply alike_emit|intros _].
  apply alike_bind; [apply alike_emit|intros _].
  apply alike_bind; [apply optimization_step_alike|intros _].
  apply alike_bind; [apply alike_emit|intros _].
  apply plot_best_model_alike.
Qed.

Lemma audible_main_opening (environ : Env) :
  audible (main_opening C environ)
  = ESetVerbosity DEBUG
    :: (if negb (is_gpu_available C)
        then [ELog WARN (PStr "GPUs are not available") []] else [])
    ++ [ELog INFO (PStr msg_plotting_demo) []].
Proof.
  unfold main_opening. rewrite !audible_app, audible_environ_lines.
  destruct (negb (is_gpu_available C)); reflexivity.
Qed.

Variables env1 env2 : Env.
Hypothesis same_but_tag :
  dict_remove "HKS_ENVIRONMENT" env1 = dict_remove "HKS_ENVIRONMENT" env2.

Lemma tag_free_get (name : string) :
  name <> "HKS_ENVIRONMENT"%string -> dict_get env1 name = dict_get env2 name.
Proof.
  intros Hne.
  rewrite <- (dict_get_remove_other env1 "HKS_ENVIRONMENT" name) by congruence.
  rewrite <- (dict_get_remove_other env2 "HKS_ENVIRONMENT" name) by congruence.
  now rewrite same_but_tag.
Qed.

Lemma tag_free_MAX_EVALS : MAX_EVALS env1 = MAX_EVALS env2.
Proof.
  unfold MAX_EVALS, environ_get. rewrite tag_free_get; [reflexivity|discriminate].
Qed.

Lemma tag_free_PLOT_FOLDER_PATH : PLOT_FOLDER_PATH C env1 = PLOT_FOLDER_PATH C env2.
Proof.
  unfold PLOT_FOLDER_PATH, EXPERIMENT_NAME.
  rewrite tag_free_get; [reflexivity|discriminate].
Qed.

Lemma tag_free_run_a_trial : run_a_trial C env1 = run_a_trial C env2.
Proof. unfold run_a_trial. now rewrite tag_free_MAX_EVALS. Qed.

Lemma tag_free_plot : plot C env1 = plot C env2.
Proof. unfold plot. now rewrite tag_free_PLOT_FOLDER_PATH. Qed.

Lemma tag_free_main_from_demo_plot :
  main_from_demo_plot C env1 = main_from_demo_plot C env2.
Proof.
  unfold main_from_demo_plot, plot_base_model, optimization_step, plot_best_model.
  now rewrite tag_free_run_a_trial, tag_free_plot.
Qed.

(** C8. Two runs whose environments differ only in HKS_ENVIRONMENT: the
    search step is the same function of the world in both; the two runs of
    the main program end in the same way, make the same calls to the
    optimizer and leave the same store, and apart from the DEBUG lines that
    print the environment they make the same calls altogether. *)
Theorem environment_tag_leaves_search_alone (w : World Store) :
  run_a_trial C env1 w = run_a_trial C env2 w
  /\ fst (main C env1 w) = fst (main C env2 w)
  /\ hyper_tune_calls (w_trace (snd (main C env1 w)))
     = hyper_tune_calls (w_trace (snd (main C env2 w)))
  /\ w_store (snd (main C env1 w)) = w_store (snd (main C env2 w))
  /\ same_but_debug (snd (main C env1 w)) (snd (main C env2 w)).
Proof.
  split; [now rewrite tag_free_run_a_trial|].
  rewrite !main_after_opening, tag_free_main_from_demo_plot.
  assert (Hw : same_but_debug (with_events w (main_opening C env1))
                 (with_events w (main_opening C env2))).
  { repeat split. cbn [w_trace with_events].
    now rewrite !audible_app, !audible_main_opening. }
  destruct (main_from_demo_plot_alike env2 _ _ Hw) as [Hr Hs].
  split; [exact Hr|].
  split; [|split; [apply Hs|exact Hs]].
  rewrite <- (hyper_tune_calls_audible (w_trace (snd (main_from_demo_plot C env2
                (with_events w (main_opening C env1)))))).
  rewrite <- (hyper_tune_calls_audible (w_trace (snd (main_from_demo_plot C env2
                (with_events w (main_opening C env2)))))).
  destruct Hs as [Ht _]. now rewrite Ht.
Qed.

End EnvironmentTag.

Lemma environment_tag_leaves_search_alone_witness :
  run_a_trial (lab flaky_evaluator) env_tag_local (fresh_world earlier_store)
  = run_a_trial (lab flaky_evaluator) env_tag_paperspace (fresh_world earlier_store)
  /\ w_store (snd (main (lab flaky_evaluator) env_tag_local
                     (fresh_world earlier_store)))
     = w_store (snd (main (lab flaky_evaluator) env_tag_paperspace
                       (fresh_world earlier_store))).
Proof.
  pose proof (environment_tag_leaves_search_alone (lab flaky_evaluator)
                env_tag_local env_tag_paperspace eq_refl
                (fresh_world earlier_store)) as H.
  destruct H as (Hrun & _ & _ & Hstore & _).
  split; [exact Hrun|exact Hstore].
Defined.

(* ================================================================= *)
(** * Further properties of the script *)

(** ** The value of HKS_MAX_EVALS *)

Lemma scan_digits_digit (acc d : Z) (count : nat) (c : ascii) (rest : string) :
  digit_of c = Some d ->
  scan_digits acc count (String c rest) = scan_digits (10 * acc + d) (S count) rest.
Proof. intros H. simpl. now rewrite H. Qed.

Lemma space_is_no_digit (c : ascii) :
  is_space c = true ->
  digit_of c = None /\ Ascii.eqb c "_" = false /\ is_ascii c = true.
Proof.
  destruct c as [[] [] [] [] [] [] [] []]; vm_compute; intros H;
    try discriminate H; repeat split; reflexivity.
Qed.

Lemma only_spaces_head (c : ascii) (s : string) :
  only_spaces (String c s) = true -> is_space c = true /\ only_spaces s = true.
Proof. simpl. intros H. now apply andb_prop in H. Qed.

Lemma scan_digits_spaces (acc : Z) (count : nat) (post : string) :
  only_spaces post = true -> scan_digits acc count post = Some (acc, count, post).
Proof.
  destruct post as [|c post]; [reflexivity|]. intros H.
  destruct (only_spaces_head c post H) as [Hc _].
  destruct (space_is_no_digit c Hc) as (Hd & Hu & _).
  cbn [scan_digits]. now rewrite Hd, Hu.
Qed.

Lemma lstrip_spaces (pre s : string) :
  only_spaces pre = true -> lstrip (pre ++ s) = lstrip s.
Proof.
  induction pre as [|c pre IH]; [reflexivity|]. simpl.
  destruct (is_space c); [exact IH|discriminate].
Qed.

Lemma only_spaces_lstrip (s : string) :
  only_spaces s = true -> lstrip s = EmptyString.
Proof.
  induction s as [|c s IH]; [reflexivity|]. simpl.
  destruct (is_space c); [exact IH|discriminate].
Qed.

Lemma all_ascii_app (s t : string) :
  all_ascii (s ++ t) = all_ascii s && all_ascii t.
Proof.
  induction s as [|c s IH]; [reflexivity|]. simpl.
  now rewrite IH, andb_assoc.
Qed.

Lemma only_spaces_all_ascii (s : string) :
  only_spaces s = true -> all_ascii s = true.
Proof.
  induction s as [|c s IH]; [reflexivity|]. intros H.
  destruct (only_spaces_head c s H) as [Hc Hs].
  destruct (space_is_no_digit c Hc) as (_ & _ & Ha).
  simpl. now rewrite Ha, (IH Hs).
Qed.

Lemma string_of_uint_all_ascii (d : Decimal.uint) :
  all_ascii (NilEmpty.string_of_uint d) = true.
Proof. induction d; simpl; auto. Qed.

Lemma py_str_int_all_ascii (z : Z) : all_ascii (py_str_int z) = true.
Proof.
  assert (H : forall d : Decimal.uint,
             all_ascii (NilZero.string_of_uint d) = true).
  { intros [|d|d|d|d|d|d|d|d|d|d]; [reflexivity|..];
      cbn [NilZero.string_of_uint]; apply string_of_uint_all_ascii. }
  unfold py_str_int.
  destruct (Z.to_int z) as [d|d]; cbn [NilZero.string_of_int all_ascii];
    [|cbn [is_ascii]]; apply H.
Qed.

#[local] Ltac next_digit k :=
  rewrite (scan_digits_digit _ k) by reflexivity.

Section Decimal.

Variable post : string.
Hypothesis post_blank : only_spaces post = true.

Lemma scan_digits_of_uint_acc (d : Decimal.uint) (acc : positive) (count : nat) :
  scan_digits (Z.pos acc) count (NilEmpty.string_of_uint d ++ post)
  = Some (Z.pos (Pos.of_uint_acc d acc),
          (count + String.length (NilEmpty.string_of_uint d))%nat, post).
Proof.
  revert acc count.
  induction d as [|d IH|d IH|d IH|d IH|d IH|d IH|d IH|d IH|d IH|d IH];
    intros acc count;
    cbn [NilEmpty.string_of_uint Pos.of_uint_acc append String.length];
    [rewrite Nat.add_0_r; now apply scan_digits_spaces
    |next_digit 0%Z|next_digit 1%Z|next_digit 2%Z|next_digit 3%Z|next_digit 4%Z
    |next_digit 5%Z|next_digit 6%Z|next_digit 7%Z|next_digit 8%Z|next_digit 9%Z];
    rewrite <- Nat.add_succ_comm, <- IH; f_equal; lia.
Qed.

Lemma scan_digits_of_uint (d : Decimal.uint) (count : nat) :
  scan_digits 0 count (NilEmpty.string_of_uint d ++ post)
  = Some (Z.of_uint d,
          (count + String.length (NilEmpty.string_of_uint d))%nat, post).
Proof.
  unfold Z.of_uint. revert count.
  induction d as [|d IH|d IH|d IH|d IH|d IH|d IH|d IH|d IH|d IH|d IH];
    intros count;
    cbn [NilEmpty.string_of_uint Pos.of_uint append String.length];
    [rewrite Nat.add_0_r; now apply scan_digits_spaces
    |next_digit 0%Z|next_digit 1%Z|next_digit 2%Z|next_digit 3%Z|next_digit 4%Z
    |next_digit 5%Z|next_digit 6%Z|next_digit 7%Z|next_digit 8%Z|next_digit 9%Z];
    rewrite <- Nat.add_succ_comm;
    [exact (IH (S count))|..]; cbn [Z.mul Z.add];
    apply scan_digits_of_uint_acc.
Qed.

Lemma scan_literal_of_uint (d : Decimal.uint) :
  scan_literal (NilZero.string_of_uint d ++ post)
  = Some (Z.of_uint d, String.length (NilZero.string_of_uint d), post).
Proof.
  destruct d;
    [change (scan_digits 0 1 post = Some (0%Z, 1%nat, post));
     now apply scan_digits_spaces|..];
    cbn [NilZero.string_of_uint];
    match goal with
    | |- _ = Some (Z.of_uint ?u, String.length ?s, _) =>
        change (String.length s) with (0 + String.length s)%nat;
        rewrite <- (scan_digits_of_uint u 0)
    end; reflexivity.
Qed.

Lemma unsigned_literal_of_uint (limit : nat) (d : Decimal.uint) :
  exceeds_limit limit (String.length (NilZero.string_of_uint d)) = false ->
  unsigned_literal limit (NilZero.string_of_uint d ++ post) = Parsed (Z.of_uint d).
Proof.
  intros H. unfold unsigned_literal.
  now rewrite scan_literal_of_uint, H, post_blank.
Qed.

Lemma ascii_int_unsigned (limit : nat) (d : Decimal.uint) :
  ascii_int limit (NilZero.string_of_uint d ++ post)
  = unsigned_literal limit (NilZero.string_of_uint d ++ post).
Proof. destruct d; reflexivity. Qed.

(** [int] undoes [str] on an integer whose digits the limit allows. *)
Lemma ascii_int_py_str_int (limit : nat) (z : Z) :
  exceeds_limit limit (decimal_digits z) = false ->
  ascii_int limit (py_str_int z ++ post) = Parsed z.
Proof.
  unfold decimal_digits, py_str_int. destruct z as [|p|p];
    cbn [Z.abs Z.to_int NilZero.string_of_int append]; intros H.
  - rewrite ascii_int_unsigned. now apply unsigned_literal_of_uint.
  - rewrite ascii_int_unsigned, (unsigned_literal_of_uint limit _ H).
    f_equal. exact (DecimalZ.of_to (Z.pos p)).
  - change (ascii_int limit
              (String "-" (NilZero.string_of_uint (Pos.to_uint p) ++ post)))
      with (negated (unsigned_literal limit
                       (NilZero.string_of_uint (Pos.to_uint p) ++ post))).
    rewrite (unsigned_literal_of_uint limit _ H). cbn [negated].
    f_equal. exact (DecimalZ.of_to (Z.neg p)).
Qed.

End Decimal.

Lemma ascii_int_lstrip (limit : nat) (s : string) :
  ascii_int limit (lstrip s) = ascii_int limit s.
Proof.
  unfold ascii_int.
  assert (H : lstrip (lstrip s) = lstrip s).
  { induction s as [|c s IH]; [reflexivity|]. simpl.
    destruct (is_space c) eqn:E; [exact IH|]. simpl. now rewrite E. }
  now rewrite H.
Qed.

(** [int] undoes [str] on every integer within the limit, also between
    white space. *)
Lemma int_of_str_py_str_int (R : Runtime) (z : Z) (pre post : string) :
  only_spaces pre = true -> only_spaces post = true ->
  exceeds_limit (int_max_str_digits R) (decimal_digits z) = false ->
  int_of_str R (pre ++ py_str_int z ++ post) = Ok z.
Proof.
  intros Hpre Hpost Hlimit. unfold int_of_str.
  rewrite !all_ascii_app, (only_spaces_all_ascii _ Hpre),
    (only_spaces_all_ascii _ Hpost), py_str_int_all_ascii.
  cbn [andb].
  rewrite <- ascii_int_lstrip, (lstrip_spaces _ _ Hpre), ascii_int_lstrip.
  now rewrite (ascii_int_py_str_int post Hpost _ z Hlimit).
Qed.

(** [int] refuses a blank string as an invalid literal. *)
Lemma int_of_str_blank (R : Runtime) (s : string) :
  only_spaces s = true -> int_of_str R s = Raise (invalid_literal s).
Proof.
  intros Hs. unfold int_of_str, ascii_int.
  now rewrite (only_spaces_all_ascii s Hs), (only_spaces_lstrip s Hs).
Qed.

Section MaxEvalsValue.

Context {Store Objective : Type}.
Variable C : Collaborators Store Objective.
Variable environ : Env.

(** X1. Setting HKS_MAX_EVALS to the decimal form of an integer [z], with
    the white space of [int] (tab, line feed, vertical tab, form feed,
    carriage return, space) around it or not, makes [run_a_trial] call the
    optimizer with [max_evals = z], provided the interpreter's limit on the
    digits of an integer string admits [z]: whatever the integer is, also
    zero or a negative one, it is passed on as it is. *)
Theorem max_evals_decimal_round_trip (z : Z) (pre post : string)
    (w : World Store) :
  only_spaces pre = true ->
  only_spaces post = true ->
  exceeds_limit (int_max_str_digits (runtime C)) (decimal_digits z) = false ->
  dict_get environ "HKS_MAX_EVALS" = Some (pre ++ py_str_int z ++ post)%string ->
  py_int (runtime C) (MAX_EVALS environ) = Ok z
  /\ hyper_tune_calls (events_since w (snd (run_a_trial C environ w)))
     = [(space, [("algo"%string, KAlgo tpe_suggest); ("max_evals"%string, KInt z)])].
Proof.
  intros Hpre Hpost Hlimit Hget.
  assert (E : py_int (runtime C) (MAX_EVALS environ) = Ok z).
  { rewrite (MAX_EVALS_set environ _ Hget). simpl.
    exact (int_of_str_py_str_int (runtime C) z pre post Hpre Hpost Hlimit). }
  split; [exact E|]. exact (run_a_trial_hyper_tune_calls C environ w z E).
Qed.

(** X2. A variable HKS_MAX_EVALS that is set but empty or blank is not taken
    for an unset one: the default 5 is not used, [run_a_trial] raises the
    ValueError of an invalid literal, whose message quotes at most the first
    200 characters of the value, and the optimizer is not called. *)
Theorem blank_max_evals_is_not_unset (s : string) (w : World Store) :
  dict_get environ "HKS_MAX_EVALS" = Some s ->
  only_spaces s = true ->
  MAX_EVALS environ <> PInt 5
  /\ fst (run_a_trial C environ w) = Raise (invalid_literal s)
  /\ hyper_tune_calls (events_since w (snd (run_a_trial C environ w))) = [].
Proof.
  intros Hget Hs.
  assert (E : py_int (runtime C) (MAX_EVALS environ) = Raise (invalid_literal s)).
  { rewrite (MAX_EVALS_set environ _ Hget). simpl.
    exact (int_of_str_blank (runtime C) s Hs). }
  split; [rewrite (MAX_EVALS_set environ _ Hget); discriminate|].
  rewrite (run_a_trial_conversion_fails C environ w _ E). cbn [fst snd].
  rewrite events_since_with_events. split; reflexivity.
Qed.

End MaxEvalsValue.

Lemma max_evals_decimal_round_trip_witness :
  hyper_tune_calls
    (events_since (fresh_world [])
       (snd (run_a_trial (lab raising_evaluator) env_twelve (fresh_world []))))
  = [(space, [("algo"%string, KAlgo tpe_suggest); ("max_evals"%string, KInt 12)])].
Proof.
  apply (max_evals_decimal_round_trip (lab raising_evaluator) env_twelve 12%Z
           EmptyString EmptyString (fresh_world []));
    reflexivity.
Defined.

Lemma blank_max_evals_is_not_unset_witness :
  fst (run_a_trial (lab raising_evaluator) env_blank_evals (fresh_world []))
  = Raise (invalid_literal "  ").
Proof.
  apply (blank_max_evals_is_not_unset (lab raising_evaluator) env_blank_evals
           "  "%string (fresh_world []));
    reflexivity.
Defined.

(** ** More on [plot] *)

Lemma makedirs_calls_app (a b : list Event) :
  makedirs_calls (a ++ b) = makedirs_calls a ++ makedirs_calls b.
Proof.
  induction a as [|ev a IH]; simpl; [reflexivity|].
  destruct ev; simpl; rewrite ?IH; reflexivity.
Qed.

Lemma files_asked_app (a b : list Event) :
  files_asked (a ++ b) = files_asked a ++ files_asked b.
Proof. unfold files_asked. now rewrite plot_model_calls_app, map_app. Qed.

Lemma append_inv_head (a s1 s2 : string) :
  (a ++ s1)%string = (a ++ s2)%string -> s1 = s2.
Proof.
  induction a as [|c a IH]; simpl; [trivial|].
  intros H. inversion H. now apply IH.
Qed.

Lemma append_length (s1 s2 : string) :
  String.length (s1 ++ s2) = (String.length s1 + String.length s2)%nat.
Proof. induction s1 as [|c s1 IH]; simpl; [reflexivity|now rewrite IH]. Qed.

Lemma append_inv_tail (s1 s2 t : string) :
  (s1 ++ t)%string = (s2 ++ t)%string -> s1 = s2.
Proof.
  revert s2. induction s1 as [|c s1 IH]; intros [|c2 s2] H; simpl in H.
  - reflexivity.
  - apply (f_equal String.length) in H. simpl in H.
    rewrite append_length in H. lia.
  - apply (f_equal String.length) in H. simpl in H.
    rewrite append_length in H. lia.
  - inversion H. f_equal. now apply IH.
Qed.

(** The path of a diagram tells its prefix. *)
Lemma claimed_plot_path_injective (folder : option string) (p1 p2 : string) :
  claimed_plot_path folder p1 = claimed_plot_path folder p2 -> p1 = p2.
Proof.
  destruct folder as [[|c rest]|]; cbn [claimed_plot_path]; intros H.
  - now apply append_inv_tail in H.
  - apply append_inv_head in H. apply append_inv_head in H.
    now apply append_inv_tail in H.
  - now apply append_inv_tail in H.
Qed.

Section PlotEdges.

Context {Store Objective : Type}.
Variable C : Collaborators Store Objective.
Variable environ : Env.

#[local] Abbreviation folder := (PLOT_FOLDER_PATH C environ).

#[local] Ltac run_plot :=
  repeat unfold plot, path_exists, makedirs, build_model, plot_model,
    clear_session, del, emit, raise_if, raise, ret, bind;
  cbn [fst snd w_trace w_dirs w_files w_session w_store negb andb].

#[local] Ltac since :=
  erewrite events_since_extended
    by (cbn [w_trace]; rewrite <- ?app_assoc; cbn [app]; reflexivity).

(** The files [plot] asks [plot_model] for: the claimed path, once or not at
    all. *)
Lemma plot_files_asked (hyperspace : Config) (prefix : string) (w : World Store) :
  let evs := events_since w (snd (plot C environ hyperspace prefix w)) in
  files_asked evs = [] \/ files_asked evs = [claimed_plot_path folder prefix].
Proof.
  cbv zeta.
  destruct (plot_outcome C environ hyperspace prefix w)
    as [_ [evs [Htrace [_ Hcases]]]].
  rewrite (events_since_extended _ _ _ Htrace). unfold files_asked.
  destruct Hcases as [[_ [[before [-> Hb]] _]] | [_ [[Hc | Hc] _]]].
  - right. rewrite plot_model_calls_app, Hb. reflexivity.
  - left. now rewrite Hc.
  - right. now rewrite Hc.
Qed.

(** [os.makedirs] is called when the plot folder is configured and does not
    exist, and then on that folder. *)
Lemma plot_makedirs_calls (hyperspace : Config) (prefix : string)
    (w : World Store) :
  makedirs_calls (events_since w (snd (plot C environ hyperspace prefix w)))
  = if truthy folder && negb (existsb (String.eqb (str_of folder)) (w_dirs w))
    then [str_of folder] else [].
Proof.
  run_plot.
  destruct (truthy folder); run_plot.
  - destruct (existsb (String.eqb (str_of folder)) (w_dirs w)); run_plot.
    + destruct (build_model_error C hyperspace) as [e|]; run_plot;
        [|destruct (plot_model_error C (mk_model hyperspace)
                     (str_of folder ++ "/" ++ prefix ++ ".png")%string)
            as [e|]; run_plot];
        since; reflexivity.
    + destruct (makedirs_error C (str_of folder)) as [e|]; run_plot;
        [|destruct (build_model_error C hyperspace) as [e|]; run_plot;
          [|destruct (plot_model_error C (mk_model hyperspace)
                       (str_of folder ++ "/" ++ prefix ++ ".png")%string)
              as [e|]; run_plot]];
        since; reflexivity.
  - destruct (build_model_error C hyperspace) as [e|]; run_plot;
      [|destruct (plot_model_error C (mk_model hyperspace)
                   (prefix ++ ".png")%string) as [e|]; run_plot];
      since; reflexivity.
Qed.

(** When [plot] returns, a configured plot folder exists. *)
Lemma plot_leaves_the_folder (hyperspace : Config) (prefix : string)
    (w : World Store) :
  fst (plot C environ hyperspace prefix w) = Ok tt ->
  truthy folder = true ->
  existsb (String.eqb (str_of folder))
    (w_dirs (snd (plot C environ hyperspace prefix w))) = true.
Proof.
  intros Hok Ht. revert Hok. run_plot. rewrite Ht. run_plot.
  destruct (existsb (String.eqb (str_of folder)) (w_dirs w)) eqn:Ex; run_plot.
  - destruct (build_model_error C hyperspace) as [e|]; run_plot;
      [|destruct (plot_model_error C (mk_model hyperspace)
                   (str_of folder ++ "/" ++ prefix ++ ".png")%string)
          as [e|]; run_plot];
      intros Hok; try discriminate Hok. exact Ex.
  - destruct (makedirs_error C (str_of folder)) as [e|]; run_plot;
      [|destruct (build_model_error C hyperspace) as [e|]; run_plot;
        [|destruct (plot_model_error C (mk_model hyperspace)
                     (str_of folder ++ "/" ++ prefix ++ ".png")%string)
            as [e|]; run_plot]];
      intros Hok; try discriminate Hok.
    cbn [existsb]. now rewrite String.eqb_refl.
Qed.

(** X3. [plot] calls [os.makedirs] only on the configured plot folder and
    only when that folder does not exist; once a call to [plot] has
    returned, a later call to [plot], for any hyperspace and prefix, does
    not call [os.makedirs] again. *)
Theorem plot_makes_the_folder_once (h1 h2 : Config) (p1 p2 : string)
    (w : World Store) :
  let w1 := snd (plot C environ h1 p1 w) in
  makedirs_calls (events_since w w1)
  = (if truthy folder && negb (existsb (String.eqb (str_of folder)) (w_dirs w))
     then [str_of folder] else [])
  /\ (fst (plot C environ h1 p1 w) = Ok tt ->
      makedirs_calls (events_since w1 (snd (plot C environ h2 p2 w1))) = []).
Proof.
  cbv zeta. split; [apply plot_makedirs_calls|].
  intros Hok. rewrite plot_makedirs_calls.
  destruct (truthy folder) eqn:Ht; [|reflexivity].
  now rewrite (plot_leaves_the_folder h1 p1 w Hok Ht).
Qed.

(** X4. [plot] has no clean-up for a failure.  When it raises, the exception
    is the one [os.makedirs], [build_model] or [plot_model] raised,
    [K.clear_session()] has not been called and no file is written; when it
    is [plot_model] that raised, the model that was built is still in the
    backend session. *)
Theorem plot_failure_leaves_the_model (hyperspace : Config) (prefix : string)
    (w : World Store) (e : exn) :
  fst (plot C environ hyperspace prefix w) = Raise e ->
  let w' := snd (plot C environ hyperspace prefix w) in
  ~ In EClearSession (events_since w w')
  /\ w_files w' = w_files w
  /\ ((makedirs_error C (str_of folder) = Some e /\ w_session w' = w_session w)
      \/ (build_model_error C hyperspace = Some e /\ w_session w' = w_session w)
      \/ (plot_model_error C (mk_model hyperspace)
            (claimed_plot_path folder prefix) = Some e
          /\ w_session w' = mk_model hyperspace :: w_session w)).
Proof.
  cbv zeta. run_plot.
  destruct (truthy folder) eqn:Ht; run_plot.
  - rewrite (truthy_path _ prefix Ht).
    destruct (existsb (String.eqb (str_of folder)) (w_dirs w)); run_plot.
    + destruct (build_model_error C hyperspace) as [e'|] eqn:Eb; run_plot;
        [|destruct (plot_model_error C (mk_model hyperspace)
                     (claimed_plot_path folder prefix)) as [e'|] eqn:Ep; run_plot];
        intros He; inversion He; subst; since;
        (split; [cbn [In]; intuition discriminate|]);
        (split; [reflexivity|]); auto.
    + destruct (makedirs_error C (str_of folder)) as [e'|] eqn:Em; run_plot;
        [|destruct (build_model_error C hyperspace) as [e'|] eqn:Eb; run_plot;
          [|destruct (plot_model_error C (mk_model hyperspace)
                       (claimed_plot_path folder prefix)) as [e'|] eqn:Ep;
            run_plot]];
        intros He; inversion He; subst; since;
        (split; [cbn [In]; intuition discriminate|]);
        (split; [reflexivity|]); auto.
  - rewrite (falsy_path _ prefix Ht).
    destruct (build_model_error C hyperspace) as [e'|] eqn:Eb; run_plot;
      [|destruct (plot_model_error C (mk_model hyperspace)
                   (claimed_plot_path folder prefix)) as [e'|] eqn:Ep; run_plot];
      intros He; inversion He; subst; since;
      (split; [cbn [In]; intuition discriminate|]);
      (split; [reflexivity|]); auto.
Qed.

(** X5. The file of a diagram tells its prefix: two calls to [plot] with
    different prefixes never ask [plot_model] for the same file, whatever
    the hyperspaces and the worlds they run in. *)
Theorem plot_files_differ_with_the_prefix (h1 h2 : Config) (p1 p2 f1 f2 : string)
    (w1 w2 : World Store) :
  p1 <> p2 ->
  In f1 (files_asked (events_since w1 (snd (plot C environ h1 p1 w1)))) ->
  In f2 (files_asked (events_since w2 (snd (plot C environ h2 p2 w2)))) ->
  f1 <> f2.
Proof.
  intros Hne H1 H2 Heq. apply Hne.
  destruct (plot_files_asked h1 p1 w1) as [E1|E1]; rewrite E1 in H1;
    [destruct H1|].
  destruct (plot_files_asked h2 p2 w2) as [E2|E2]; rewrite E2 in H2;
    [destruct H2|].
  destruct H1 as [H1|[]], H2 as [H2|[]].
  apply (claimed_plot_path_injective folder). congruence.
Qed.

End PlotEdges.

Lemma plot_makes_the_folder_once_witness :
  makedirs_calls
    (events_since (fresh_world [])
       (snd (plot (lab raising_evaluator) env_cifar space_base_demo_to_plot
               "model_demo" (fresh_world []))))
  = ["/storage/models/cifar"%string]
  /\ makedirs_calls
       (events_since
          (snd (plot (lab raising_evaluator) env_cifar space_base_demo_to_plot
                  "model_demo" (fresh_world [])))
          (snd (plot (lab raising_evaluator) env_cifar earlier_best "model_best"
                  (snd (plot (lab raising_evaluator) env_cifar
                          space_base_demo_to_plot "model_demo"
                          (fresh_world []))))))
     = [].
Proof.
  pose proof (plot_makes_the_folder_once (lab raising_evaluator) env_cifar
                space_base_demo_to_plot earlier_best "model_demo" "model_best"
                (fresh_world [])) as H.
  cbv zeta in H. destruct H as [Hfirst Hsecond].
  split; [rewrite Hfirst; reflexivity|].
  apply Hsecond. reflexivity.
Defined.

Lemma plot_failure_leaves_the_model_witness :
  w_session
    (snd (plot (lab_no_graphviz raising_evaluator) env_cifar earlier_best
            "model_best" (fresh_world [])))
  = [mk_model earlier_best]
  /\ w_files
       (snd (plot (lab_no_graphviz raising_evaluator) env_cifar earlier_best
               "model_best" (fresh_world [])))
     = [].
Proof.
  pose proof (plot_failure_leaves_the_model (lab_no_graphviz raising_evaluator)
                env_cifar earlier_best "model_best" (fresh_world [])
                import_error eq_refl) as H.
  cbv zeta in H. destruct H as (_ & Hfiles & Hcases).
  split; [|exact Hfiles].
  destruct Hcases as [[Hm _] | [[Hb _] | [_ Hs]]];
    [discriminate Hm|discriminate Hb|exact Hs].
Defined.

Lemma plot_files_differ_with_the_prefix_witness :
  "/storage/models/cifar/model_demo.png"%string
  <> "/storage/models/cifar/model_best.png"%string.
Proof.
  apply (plot_files_differ_with_the_prefix (lab raising_evaluator) env_cifar
           space_base_demo_to_plot earlier_best "model_demo" "model_best"
           "/storage/models/cifar/model_demo.png"
           "/storage/models/cifar/model_best.png"
           (fresh_world []) (fresh_world earlier_store));
    [discriminate|simpl; now left|simpl; now left].
Defined.

(** ** More on the main program *)

Section Composition.

Context {Store : Type}.

Lemma events_since_trans (w w1 w2 : World Store) :
  extends w w1 -> extends w1 w2 ->
  events_since w w2 = events_since w w1 ++ events_since w1 w2.
Proof.
  intros [a Ha] [b Hb].
  rewrite (events_since_extended w w1 a Ha), (events_since_extended w1 w2 b Hb).
  apply events_since_extended. now rewrite Hb, Ha, app_assoc.
Qed.

End Composition.

Section OptimizationStep.

Context {Store Objective : Type}.
Variable C : Collaborators Store Objective.
Variable environ : Env.

(** What [run_a_trial] changes and calls. *)
Lemma run_a_trial_effects (w : World Store) :
  let w' := snd (run_a_trial C environ w) in
  w_dirs w' = w_dirs w
  /\ w_files w' = w_files w
  /\ w_session w' = w_session w
  /\ w_store w' = store_after_search C environ (w_store w)
  /\ hyper_tune_calls (events_since w w') = search_calls C environ
  /\ plot_model_calls (events_since w w') = [].
Proof.
  cbv zeta. unfold store_after_search, search_calls.
  destruct (py_int (runtime C) (MAX_EVALS environ)) as [n|e] eqn:E.
  - rewrite (run_a_trial_calls_hyper_tune C environ w n E). cbv zeta.
    destruct (hyper_tune C (optimize_cnn C) space (hyper_tune_kwargs n) (w_store w))
      as [[best|e] s];
      cbn [snd w_dirs w_files w_session w_store];
      (erewrite events_since_extended
         by (cbn [w_trace with_events]; rewrite <- ?app_assoc; reflexivity));
      repeat split.
  - rewrite (run_a_trial_conversion_fails C environ w e E). cbn [snd].
    rewrite events_since_with_events. repeat split.
Qed.

(** The same for the [try] statement around it: the handler only logs. *)
Lemma optimization_step_effects (w : World Store) :
  let w' := snd (optimization_step C environ w) in
  w_dirs w' = w_dirs w
  /\ w_files w' = w_files w
  /\ w_session w' = w_session w
  /\ w_store w' = store_after_search C environ (w_store w)
  /\ hyper_tune_calls (events_since w w') = search_calls C environ
  /\ plot_model_calls (events_since w w') = [].
Proof.
  cbv zeta.
  destruct (run_a_trial_effects w) as (Hd & Hf & Hs & Hst & Hc & Hp).
  pose proof (run_a_trial_extends C environ w) as Hext.
  destruct (run_a_trial C environ w) as [[best|e] w2] eqn:E;
    cbn [snd] in *;
    [rewrite (optimization_step_completes C environ w w2 best E)
    |rewrite (optimization_step_handles C environ w w2 e E)];
    cbn [snd];
    rewrite (events_since_trans w w2 _ Hext (extends_with_events _ _));
    rewrite events_since_with_events;
    rewrite hyper_tune_calls_app, plot_model_calls_app, Hc, Hp, !app_nil_r;
    repeat split; assumption.
Qed.

(** What [plot_best_model] changes and calls. *)
Lemma plot_best_model_effects (w : World Store) :
  let w' := snd (plot_best_model C environ w) in
  w_store w' = w_store w
  /\ hyper_tune_calls (events_since w w') = []
  /\ (files_asked (events_since w w') = []
      \/ files_asked (events_since w w')
         = [claimed_plot_path (PLOT_FOLDER_PATH C environ) "model_best"]).
Proof.
  cbv zeta.
  destruct (load_best_hyperspace C (w_store w)) as [[best|]|e] eqn:E.
  - rewrite (plot_best_model_some C environ w best E).
    set (w1 := with_events w
                 [ELoadBest; ELog INFO (PStr "Best hyperspace yet:") [];
                  EPrintJson best]).
    destruct (plot_outcome C environ best "model_best" w1)
      as [Hst [evs [Htrace [Hnone _]]]].
    pose proof (plot_files_asked C environ best "model_best" w1) as Hfiles.
    cbv zeta in Hfiles.
    assert (Hext : extends w1 (snd (plot C environ best "model_best" w1)))
      by (now exists evs).
    assert (Hn : hyper_tune_calls
                   (events_since w1 (snd (plot C environ best "model_best" w1)))
                 = [])
      by (now rewrite (events_since_extended _ _ _ Htrace)).
    assert (Hw1 : events_since w w1
                  = [ELoadBest; ELog INFO (PStr "Best hyperspace yet:") [];
                     EPrintJson best])
      by apply events_since_with_events.
    rewrite (events_since_trans w w1 _ (extends_with_events _ _) Hext), Hw1.
    rewrite hyper_tune_calls_app, !files_asked_app, Hn.
    split; [exact Hst|]. split; [reflexivity|exact Hfiles].
  - rewrite (plot_best_model_none C environ w E). cbn [snd].
    rewrite events_since_with_events. repeat split. now left.
  - unfold plot_best_model, call_load_best_hyperspace.
    rewrite !bind_run, emit_with_events. cbv beta iota.
    cbn [w_store with_events]. rewrite E. cbn [snd].
    change (mk_world (w_trace w ++ [ELoadBest]) (w_dirs w) (w_files w)
              (w_session w) (w_store w))
      with (with_events w [ELoadBest]).
    rewrite events_since_with_events. repeat split. now left.
Qed.

End OptimizationStep.

Section MainComposition.

Context {Store Objective : Type}.
Variable C : Collaborators Store Objective.
Variable environ : Env.

Lemma main_opening_observed :
  hyper_tune_calls (main_opening C environ) = []
  /\ files_asked (main_opening C environ) = [].
Proof.
  unfold main_opening, files_asked.
  rewrite !hyper_tune_calls_app, !plot_model_calls_app, environ_lines_no_calls.
  assert (H : plot_model_calls (environ_lines environ) = []).
  { unfold environ_lines. induction environ as [|kv rest IH];
      [reflexivity|exact IH]. }
  rewrite H. destruct (negb (is_gpu_available C)); split; reflexivity.
Qed.

(** A run of [main] whose demo plot returns: the worlds it goes through and
    the calls it makes, piece by piece. *)
Lemma main_run_pieces (w : World Store) :
  let w0 := with_events w (main_opening C environ) in
  let w1 := snd (plot_base_model C environ w0) in
  let w1' := with_events w1 main_before_step in
  let w2 := snd (optimization_step C environ w1') in
  let w2' := with_events w2 [ELog INFO (PStr "PLOTTING BEST MODEL:") []] in
  fst (plot_base_model C environ w0) = Ok tt ->
  main C environ w = plot_best_model C environ w2'
  /\ events_since w (snd (main C environ w))
     = main_opening C environ
       ++ events_since w0 w1
       ++ main_before_step
       ++ events_since w1' w2
       ++ [ELog INFO (PStr "PLOTTING BEST MODEL:") []]
       ++ events_since w2' (snd (plot_best_model C environ w2')).
Proof.
  cbv zeta. intros Hok.
  assert (Hmain :
    main C environ w
    = plot_best_model C environ
        (with_events
           (snd (optimization_step C environ
                   (with_events
                      (snd (plot_base_model C environ
                              (with_events w (main_opening C environ))))
                      main_before_step)))
           [ELog INFO (PStr "PLOTTING BEST MODEL:") []])).
  { rewrite main_until_demo_plot.
    destruct (plot_base_model C environ _) as [[[]|e'] w1];
      cbn [fst snd] in *; [|discriminate].
    pose proof (optimization_step_returns C environ
                  (with_events w1 main_before_step)) as Hs.
    destruct (optimization_step C environ _) as [[[]|e'] w2];
      cbn [fst snd] in *; [reflexivity|discriminate]. }
  split; [exact Hmain|]. rewrite Hmain.
  set (w0 := with_events w (main_opening C environ)).
  set (w1 := snd (plot_base_model C environ w0)).
  set (w1' := with_events w1 main_before_step).
  set (w2 := snd (optimization_step C environ w1')).
  set (w2' := with_events w2 [ELog INFO (PStr "PLOTTING BEST MODEL:") []]).
  assert (E01 : extends w0 w1)
    by apply (plot_extends C environ space_base_demo_to_plot "model_demo").
  assert (E12 : extends w1' w2) by apply optimization_step_extends.
  assert (E23 : extends w2' (snd (plot_best_model C environ w2')))
    by apply plot_best_model_extends.
  assert (Ea : extends w w0) by apply extends_with_events.
  assert (Eb : extends w1 w1') by apply extends_with_events.
  assert (Ec : extends w2 w2') by apply extends_with_events.
  rewrite (events_since_trans w w2' _
             (extends_trans _ _ _ Ea
                (extends_trans _ _ _ E01
                   (extends_trans _ _ _ Eb (extends_trans _ _ _ E12 Ec)))) E23).
  rewrite (events_since_trans w w2 _
             (extends_trans _ _ _ Ea
                (extends_trans _ _ _ E01 (extends_trans _ _ _ Eb E12))) Ec).
  rewrite (events_since_trans w w1' _
             (extends_trans _ _ _ Ea (extends_trans _ _ _ E01 Eb)) E12).
  rewrite (events_since_trans w w1 _ (extends_trans _ _ _ Ea E01) Eb).
  rewrite (events_since_trans w w0 _ Ea E01).
  unfold w0 at 1, w1' at 1, w2' at 1. rewrite !events_since_with_events.
  rewrite <- !app_assoc. reflexivity.
Qed.

(** A run of [main] whose demo plot raises ends with that plot. *)
Lemma main_run_aborted (w : World Store) (e : exn) :
  let w0 := with_events w (main_opening C environ) in
  fst (plot_base_model C environ w0) = Raise e ->
  main C environ w = plot_base_model C environ w0
  /\ events_since w (snd (main C environ w))
     = main_opening C environ
       ++ events_since w0 (snd (plot_base_model C environ w0)).
Proof.
  cbv zeta. intros He.
  assert (Hmain : main C environ w
                  = plot_base_model C environ
                      (with_events w (main_opening C environ))).
  { rewrite main_until_demo_plot.
    destruct (plot_base_model C environ _) as [[[]|e'] w1];
      cbn [fst] in He; [discriminate|reflexivity]. }
  split; [exact Hmain|]. rewrite Hmain.
  pose proof (plot_extends C environ space_base_demo_to_plot "model_demo"
                (with_events w (main_opening C environ))) as Hp.
  fold (plot_base_model C environ) in Hp.
  rewrite (events_since_trans w _ _ (extends_with_events _ _) Hp).
  now rewrite events_since_with_events.
Qed.

End MainComposition.

Section MainEffects.

Context {Store Objective : Type}.
Variable C : Collaborators Store Objective.
Variable environ : Env.

Lemma plot_base_model_effects (w : World Store) :
  let w' := snd (plot_base_model C environ w) in
  w_store w' = w_store w
  /\ hyper_tune_calls (events_since w w') = []
  /\ (files_asked (events_since w w') = []
      \/ files_asked (events_since w w')
         = [claimed_plot_path (PLOT_FOLDER_PATH C environ) "model_demo"]).
Proof.
  cbv zeta. unfold plot_base_model.
  destruct (plot_outcome C environ space_base_demo_to_plot "model_demo" w)
    as [Hst [evs [Htrace [Hnone _]]]].
  split; [exact Hst|]. split.
  - now rewrite (events_since_extended _ _ _ Htrace).
  - apply plot_files_asked.
Qed.


(** The calls to the optimizer in a run of [main]. *)
Lemma main_search_calls (w : World Store) :
  hyper_tune_calls (events_since w (snd (main C environ w)))
  = if is_ok (fst (plot_base_model C environ
                     (with_events w (main_opening C environ))))
    then search_calls C environ else [].
Proof.
  destruct (fst (plot_base_model C environ
                   (with_events w (main_opening C environ))))
    as [[]|e] eqn:Edemo; cbn [is_ok].
  - destruct (main_run_pieces C environ w Edemo) as [_ Hev]. rewrite Hev.
    rewrite !hyper_tune_calls_app.
    rewrite (proj1 (main_opening_observed C environ)).
    rewrite (proj1 (proj2 (plot_base_model_effects _))).
    destruct (optimization_step_effects C environ
                (with_events
                   (snd (plot_base_model C environ
                           (with_events w (main_opening C environ))))
                   main_before_step))
      as (_ & _ & _ & _ & Hc & _).
    rewrite Hc.
    rewrite (proj1 (proj2 (plot_best_model_effects C environ _))).
    cbn [hyper_tune_calls main_before_step app]. now rewrite app_nil_r.
  - destruct (main_run_aborted C environ w e Edemo) as [_ Hev]. rewrite Hev.
    rewrite hyper_tune_calls_app.
    rewrite (proj1 (main_opening_observed C environ)).
    now rewrite (proj1 (proj2 (plot_base_model_effects _))).
Qed.

(** X6. A run of the main program starts at most one search.  When the plot
    of the demo model returns, [hyper_tune] is called once if [MAX_EVALS]
    converts to an integer and not at all if it does not; when that plot
    raises, [hyper_tune] is not called.  Neither plot calls it. *)
Theorem main_searches_at_most_once (w : World Store) :
  let calls := hyper_tune_calls (events_since w (snd (main C environ w))) in
  calls
  = (if is_ok (fst (plot_base_model C environ
                      (with_events w (main_opening C environ))))
     then match py_int (runtime C) (MAX_EVALS environ) with
          | Ok n => [(space, hyper_tune_kwargs n)]
          | Raise _ => []
          end
     else [])
  /\ (List.length calls <= 1)%nat.
Proof.
  cbv zeta. rewrite main_search_calls. split; [reflexivity|].
  unfold search_calls.
  destruct (is_ok _); [|simpl; lia].
  destruct (py_int (runtime C) (MAX_EVALS environ)); simpl; lia.
Qed.


(** X8. A run of the main program asks [plot_model] for at most two files,
    the demo diagram and then the best diagram, and never for the same file
    twice: the best diagram does not overwrite the demo diagram. *)
Theorem main_draws_no_file_twice (w : World Store) :
  let files := files_asked (events_since w (snd (main C environ w))) in
  (exists demo best : list string,
      files = demo ++ best
      /\ (demo = []
          \/ demo = [claimed_plot_path (PLOT_FOLDER_PATH C environ) "model_demo"])
      /\ (best = []
          \/ best = [claimed_plot_path (PLOT_FOLDER_PATH C environ) "model_best"]))
  /\ NoDup files.
Proof.
  cbv zeta.
  assert (Hshape :
    exists demo best : list string,
      files_asked (events_since w (snd (main C environ w))) = demo ++ best
      /\ (demo = []
          \/ demo = [claimed_plot_path (PLOT_FOLDER_PATH C environ) "model_demo"])
      /\ (best = []
          \/ best = [claimed_plot_path (PLOT_FOLDER_PATH C environ) "model_best"])).
  { destruct (fst (plot_base_model C environ
                     (with_events w (main_opening C environ))))
      as [[]|e] eqn:Edemo.
    - destruct (main_run_pieces C environ w Edemo) as [_ Hev]. rewrite Hev.
      rewrite !files_asked_app.
      rewrite (proj2 (main_opening_observed C environ)).
      destruct (optimization_step_effects C environ
                  (with_events
                     (snd (plot_base_model C environ
                             (with_events w (main_opening C environ))))
                     main_before_step))
        as (_ & _ & _ & _ & _ & Hp).
      unfold files_asked at 3. rewrite Hp.
      cbn [files_asked plot_model_calls main_before_step map app].
      eexists. eexists. split; [reflexivity|]. split.
      + apply (proj2 (proj2 (plot_base_model_effects _))).
      + apply (proj2 (proj2 (plot_best_model_effects C environ _))).
    - destruct (main_run_aborted C environ w e Edemo) as [_ Hev]. rewrite Hev.
      rewrite files_asked_app, (proj2 (main_opening_observed C environ)).
      eexists. exists []. split; [now rewrite app_nil_r|]. split.
      + apply (proj2 (proj2 (plot_base_model_effects _))).
      + now left. }
  split; [exact Hshape|].
  destruct Hshape as (demo & best & -> & [-> | ->] & [-> | ->]); cbn [app].
  - constructor.
  - repeat constructor. intros [].
  - repeat constructor. intros [].
  - repeat constructor; [|intros []].
    intros [H|[]]. apply claimed_plot_path_injective in H. discriminate H.
Qed.


End MainEffects.



(** ** The demo hyperspace and the space *)

#[local] Ltac option_of_choice :=
  eapply within_choice;
  [cbn [In];
   ((left; reflexivity) + (right; left; reflexivity)
    + (right; right; left; reflexivity)
    + (right; right; right; left; reflexivity))|].

#[local] Ltac as_literal :=
  left;
  first [ apply within_literal
        | option_of_choice; apply within_literal
        | option_of_choice; option_of_choice; apply within_literal ].

#[local] Ltac as_real :=
  right; eexists; split; [reflexivity|];
  repeat first
    [ apply within_uniform; unfold Q2R; cbn [Qnum Qden]; lra
    | apply within_loguniform; split;
      [unfold Q2R; cbn [Qnum Qden]; lra|];
      replace (Q2R 1.0) with 1%R by (unfold Q2R; cbn [Qnum Qden]; lra);
      rewrite ln_1; unfold Q2R; cbn [Qnum Qden]; lra
    | eapply within_choice; [cbn [In]; right; left; reflexivity|] ].

#[local] Ltac as_step k :=
  right; eexists; split; [reflexivity|];
  repeat (eapply within_choice; [cbn [In]; right; left; reflexivity|]);
  apply within_quniform;
  [exists k; repeat rewrite ?Q2R_minus, ?Q2R_plus; unfold Q2R;
   cbn [Qnum Qden]; lra
  |repeat rewrite ?Q2R_minus, ?Q2R_plus; unfold Q2R; cbn [Qnum Qden]; lra].

(** X10. The hyperspace [plot_base_model] plots is a point of the search
    space: it has a value for each parameter of the space and for nothing
    else, in the same order, and each value is one that the parameter's
    declaration admits (a log-uniform value by its logarithm, a quantized one
    as a multiple of the step within the bounds, a choice as one of the
    options or a value of the nested distribution). *)
Theorem demo_hyperspace_is_in_the_space :
  map fst space_base_demo_to_plot = map fst space
  /\ Forall2 (fun value declaration => admits (snd declaration) (snd value))
       space_base_demo_to_plot space.
Proof.
  split; [reflexivity|].
  unfold space_base_demo_to_plot, space.
  repeat (apply Forall2_cons; [cbn [snd]|]); [..|apply Forall2_nil].
  - as_real.
  - as_real.
  - as_step 60%Z.
  - as_literal.
  - as_real.
  - as_real.
  - as_real.
  - as_literal.
  - as_literal.
  - as_step 4%Z.
  - as_real.
  - as_literal.
  - as_step 0%Z.
  - as_literal.
  - as_step 3%Z.
  - as_step 3%Z.
  - as_real.
  - as_real.
  - as_literal.
Qed.
